(** * Sentiment evaluation harness: a shallow embedding of [main.py] and
    [analysis.py], and the properties of the evaluation pipeline.

    Conventions of the embedding.
    - A Python [str] is a [string]; a character is an [ascii], read as a code
      point below 256 (the Latin-1 range), with Python's [str.isspace] and
      [str.lower] on that range.
    - A Python [float] is an exact rational ([Q]); numpy's [nan] is explicit.
    - A raised exception is the [Raise] branch of [result]; code that prints
      or plots returns, in [io], what it wrote so far together with its
      result, so that an exception keeps the output produced before it.
    - A file is the list of lines [readlines()] returns.
    - [collections.Counter] is a finite multiset ([gmultiset]): a missing key
      counts zero, the keys are the elements that occur. *)

From Stdlib Require Import ZArith QArith Qround Qminmax Lqa String Ascii List Bool Lia.
From stdpp Require Import base list strings gmap gmultiset sorting.

Local Open Scope Z_scope.

(** ** Python values *)

Module PyStr.

(** [str.isspace] for one code point below 256: TAB..CR, FS..US, space,
    NEL and the no-break space. *)
Definition isspace (c : ascii) : bool :=
  let n := N_of_ascii c in
  ((9 <=? n) && (n <=? 13) || (28 <=? n) && (n <=? 32)
   || (n =? 133) || (n =? 160))%N.

(** [str.lower] for one code point below 256: A..Z and the Latin-1 capitals
    (0xC0..0xDE without the multiplication sign 0xD7) move up by 32. *)
Definition lower_char (c : ascii) : ascii :=
  let n := N_of_ascii c in
  if ((65 <=? n) && (n <=? 90)
      || (192 <=? n) && (n <=? 222) && negb (n =? 215))%N
  then ascii_of_N (n + 32) else c.

Fixpoint lower (s : string) : string :=
  match s with
  | "" => ""
  | String c s' => String (lower_char c) (lower s')
  end.

Fixpoint lstrip (s : string) : string :=
  match s with
  | "" => ""
  | String c s' => if isspace c then lstrip s' else s
  end.

Fixpoint rstrip (s : string) : string :=
  match s with
  | "" => ""
  | String c s' =>
      match rstrip s' with
      | "" => if isspace c then "" else String c ""
      | t => String c t
      end
  end.

(** [s.strip()] with no argument. *)
Definition strip (s : string) : string := rstrip (lstrip s).

(** Truth value of a [str]: the empty string is false. *)
Definition truthy (s : string) : bool :=
  match s with "" => false | _ => true end.

(** The line feed that ends a line read by [readlines()]. *)
Definition LF : string := String (ascii_of_N 10) "".

(** [s * n]. *)
Fixpoint times (s : string) (n : nat) : string :=
  match n with
  | O => ""
  | S n' => s +:+ times s n'
  end.

End PyStr.

(** A Python number as the scoring code produces it: the [int] literal [0]
    or the [float] of a true division. *)
Inductive pynum : Type :=
| PyInt (z : Z)
| PyFloat (q : Q).

Definition pynum_value (x : pynum) : Q :=
  match x with
  | PyInt z => inject_Z z
  | PyFloat q => q
  end.

(** A numpy scalar: a finite float or [nan]. *)
Inductive npfloat : Type :=
| Finite (q : Q)
| NaN.

(** ** Exceptions and output *)

Inductive value_error : Type :=
| NotAValidLabels (value : string)
    (* "<value> is not a valid Labels", from the call [Labels(value)] *)
| WrongLabelsFormat
    (* the message count_metrics raises when check_labels is false *)
| ZeroSizeReduction (op : string).
    (* numpy: "zero-size array to reduction operation <op> which has no
       identity" *)

Inductive exn : Type :=
| ValueError (why : value_error)
| IndexError                  (* list index out of range *)
| KeyError (key : string)     (* subscript of a dict with a missing key *)
| ZeroDivisionError
| FileMissing (which : string).  (* Exception("... not found") *)

Inductive result (A : Type) : Type :=
| Ok (a : A)
| Raise (e : exn).
Arguments Ok {A} a.
Arguments Raise {A} e.

#[global] Instance result_ret : MRet result := @Ok.
#[global] Instance result_bind : MBind result := fun A B f m =>
  match m with
  | Ok a => f a
  | Raise e => Raise e
  end.

(** What the program writes: lines printed and data handed to the plots.
    Formatted numbers stay numbers. *)
Inductive banner : Type :=
| DistributionTitle     (* АНАЛИЗ РАСПРЕДЕЛЕНИЯ ПРЕДСКАЗАНИЙ: *)
| StatisticsTitle       (* СТАТИСТИКА РАСПРЕДЕЛЕНИЯ: *)
| ByStars               (* По звездам: *)
| ByCategories          (* По категориям настроения: *)
| ConfidenceTitle       (* АНАЛИЗ УВЕРЕННОСТИ МОДЕЛИ: *)
| Processing            (* Начинаем обработку фраз! *)
| ClassificationResults (* Результаты классификации: *).

Inductive output : Type :=
| Print (line : string)
| PrintBanner (b : banner)
| PrintStar (star : Z) (count : nat) (percentage : Q)
| PrintCategory (category : string) (count : nat) (percentage : Q)
| PrintTotal (total : nat)
| PrintMean (v : npfloat)
| PrintMedian (v : npfloat)
| PrintConfidence (statistic : string) (v : npfloat)
| PrintAccuracy (accuracy : pynum)
| BarStars (stars : list Z) (counts : list nat)
| BarCategories (categories : list string) (counts : list nat)
| Hist (scores : list Q).

Definition io (A : Type) : Type := (list output * result A)%type.

#[global] Instance io_ret : MRet io := fun A a => ([], Ok a).
#[global] Instance io_bind : MBind io := fun A B f m =>
  match m with
  | (out, Ok a) => let '(out', r) := f a in (out ++ out', r)
  | (out, Raise e) => (out, Raise e)
  end.

Definition emit (o : output) : io unit := ([o], Ok tt).
Definition lift {A} (r : result A) : io A := ([], r).

(** [d[k]] on a dict with string keys. *)
Definition getitem {V} (d : gmap string V) (k : string) : result V :=
  match d !! k with
  | Some v => Ok v
  | None => Raise (KeyError k)
  end.

(** [l[i]] on a list, for an index that is not negative. *)
Definition index {A} (l : list A) (i : nat) : result A :=
  match l !! i with
  | Some a => Ok a
  | None => Raise IndexError
  end.

(** [a / b] on two ints. *)
Definition truediv (a b : Z) : result Q :=
  if b =? 0 then Raise ZeroDivisionError
  else Ok (inject_Z a / inject_Z b)%Q.

(** A loop [for x in l: body(x)] that stops at the first exception. *)
Fixpoint for_each {A} (l : list A) (body : A → io unit) : io unit :=
  match l with
  | [] => mret tt
  | x :: rest => body x;; for_each rest body
  end.

(** A comprehension [[f(x) for x in l]] whose element expression may raise. *)
Fixpoint comprehension {A B} (f : A → result B) (l : list A) : result (list B) :=
  match l with
  | [] => Ok []
  | x :: rest => y ← f x; ys ← comprehension f rest; Ok (y :: ys)
  end.

(** ** Data *)

(** One prediction of the classifier: [{'label': 'n stars', 'score': x}]. *)
Module Raw.
Record t : Type := { label : string; score : Q }.
End Raw.
Abbreviation RawPrediction := Raw.t.

(** One readable record: [{'text': .., 'label': .., 'confidence': ..}]. *)
Module Readable.
Record t : Type := { text : string; label : string; confidence : Q }.
End Readable.
Abbreviation CanonicalRecord := Readable.t.

(** ** numpy reductions and the built-in [round] *)

#[global] Instance Qle_dec : RelDecision Qle := fun x y =>
  match Qlt_le_dec y x with
  | left H => right (Qlt_not_le _ _ H)
  | right H => left H
  end.

Definition Qsum (xs : list Q) : Q := foldr Qplus 0%Q xs.

(** [np.mean]: nan (with a RuntimeWarning) on an empty array. On floats
    numpy rounds the sum and the quotient, so its result can leave this exact
    value, and the interval of the scores, by a rounding error. *)
Definition np_mean (xs : list Q) : npfloat :=
  match xs with
  | [] => NaN
  | _ => Finite (Qsum xs / inject_Z (Z.of_nat (length xs)))%Q
  end.

(** [np.median]: nan (with a RuntimeWarning) on an empty array, else the
    middle element of the sorted array or the mean of the two middle ones. *)
Definition np_median (xs : list Q) : npfloat :=
  let s := merge_sort Qle xs in
  let n := length s in
  match xs with
  | [] => NaN
  | _ =>
      if Nat.even n
      then Finite ((nth (n / 2 - 1) s 0 + nth (n / 2) s 0) / 2)%Q
      else Finite (nth (n / 2) s 0%Q)
  end.

(** [np.min] and [np.max]: ValueError on an empty array. *)
Definition np_min (xs : list Q) : result npfloat :=
  match xs with
  | [] => Raise (ValueError (ZeroSizeReduction "minimum"))
  | x :: rest => Ok (Finite (foldl Qmin x rest))
  end.

Definition np_max (xs : list Q) : result npfloat :=
  match xs with
  | [] => Raise (ValueError (ZeroSizeReduction "maximum"))
  | x :: rest => Ok (Finite (foldl Qmax x rest))
  end.

(** Nearest integer, ties to the even one. *)
Definition round_half_even (q : Q) : Z :=
  let f := Qfloor q in
  match (q - inject_Z f ?= 1 # 2)%Q with
  | Lt => f
  | Gt => f + 1
  | Eq => if Z.even f then f else f + 1
  end.

(** [round(x, ndigits)] on a float. *)
Definition round (x : Q) (ndigits : nat) : Q :=
  let p := inject_Z (10 ^ Z.of_nat ndigits) in
  (inject_Z (round_half_even (x * p)) / p)%Q.

(** ** analysis.py *)

Module analysis.

(** [Counter(l)], its keys in sorted order, and [counter[k]]. *)
Definition Counter `{Countable A} (l : list A) : gmultiset A :=
  list_to_set_disj l.
Definition sorted_keys (c : gmultiset Z) : list Z :=
  merge_sort Z.le (elements (dom c)).
Definition count_of `{Countable A} (c : gmultiset A) (k : A) : nat :=
  multiplicity k c.

Definition star_to_number : gmap string Z :=
  list_to_map
    [("1 star", 1); ("2 stars", 2); ("3 stars", 3); ("4 stars", 4);
     ("5 stars", 5)].

Definition star_to_sentiment : gmap string string :=
  list_to_map
    [("1 star", "negative"); ("2 stars", "negative");
     ("3 stars", "neutral");
     ("4 stars", "positive"); ("5 stars", "positive")].

Definition categories_list : list string :=
  ["negative"; "neutral"; "positive"].

Definition _create_plots (numeric_scores : list Z) (categories : list string)
    (star_predictions : list string) : io unit :=
  let star_counts := Counter numeric_scores in
  let stars := sorted_keys star_counts in
  let counts := map (count_of star_counts) stars in
  emit (BarStars stars counts);;
  let category_counts := Counter categories in
  let counts_cat := map (count_of category_counts) categories_list in
  emit (BarCategories categories_list counts_cat).

Definition percentage_of (count total : nat) : result Q :=
  q ← truediv (Z.of_nat count) (Z.of_nat total); Ok (q * 100)%Q.

Definition _print_statistics (numeric_scores : list Z)
    (categories : list string) (total : nat) : io unit :=
  let star_counts := Counter numeric_scores in
  let category_counts := Counter categories in
  emit (PrintBanner StatisticsTitle);;
  emit (Print (PyStr.times "-" 40));;
  emit (PrintBanner ByStars);;
  for_each (sorted_keys star_counts) (fun star =>
    let count := count_of star_counts star in
    percentage ← lift (percentage_of count total);
    emit (PrintStar star count percentage));;
  emit (PrintBanner ByCategories);;
  for_each categories_list (fun category =>
    let count := count_of category_counts category in
    percentage ← lift (percentage_of count total);
    emit (PrintCategory category count percentage));;
  emit (PrintTotal total);;
  emit (PrintMean (np_mean (map inject_Z numeric_scores)));;
  emit (PrintMedian (np_median (map inject_Z numeric_scores))).

Definition analyze_predictions_distribution
    (predicts : list RawPrediction) : io unit :=
  emit (Print (PyStr.LF +:+ PyStr.times "=" 50));;
  emit (PrintBanner DistributionTitle);;
  emit (Print (PyStr.times "=" 50));;
  let star_predictions := map Raw.label predicts in
  numeric_scores ← lift (comprehension (getitem star_to_number) star_predictions);
  categories ← lift (comprehension (getitem star_to_sentiment) star_predictions);
  _create_plots numeric_scores categories star_predictions;;
  _print_statistics numeric_scores categories (length predicts).

Definition analyze_confidence_scores (predicts : list RawPrediction) : io unit :=
  let confidence_scores := map Raw.score predicts in
  emit (Print (PyStr.LF +:+ PyStr.times "=" 50));;
  emit (PrintBanner ConfidenceTitle);;
  emit (Print (PyStr.times "=" 50));;
  emit (Hist confidence_scores);;
  emit (PrintConfidence "mean" (np_mean confidence_scores));;
  emit (PrintConfidence "median" (np_median confidence_scores));;
  lo ← lift (np_min confidence_scores);
  emit (PrintConfidence "min" lo);;
  hi ← lift (np_max confidence_scores);
  emit (PrintConfidence "max" hi).

End analysis.

(** ** main.py *)

Module main.

Inductive Labels : Type := POSITIVE | NEGATIVE | NEUTRAL.

#[global] Instance Labels_eq_dec : EqDecision Labels.
Proof. solve_decision. Defined.

Definition value (l : Labels) : string :=
  match l with
  | POSITIVE => "positive"
  | NEGATIVE => "negative"
  | NEUTRAL => "neutral"
  end.

Definition Labels_members : list Labels := [POSITIVE; NEGATIVE; NEUTRAL].

(** The call [Labels(v)]: the member whose value is [v], else ValueError. *)
Definition Labels_call (v : string) : result Labels :=
  match List.find (fun m => String.eqb (value m) v) Labels_members with
  | Some m => Ok m
  | None => Raise (ValueError (NotAValidLabels v))
  end.

Fixpoint check_labels (labels : list string) : result bool :=
  match labels with
  | [] => Ok true
  | label :: rest =>
      label ← Labels_call label;
      if bool_decide (label ≠ POSITIVE) && bool_decide (label ≠ NEGATIVE)
         && bool_decide (label ≠ NEUTRAL)
      then Ok false
      else check_labels rest
  end.

(** [[line.strip().lower() for line in file.readlines() if line.strip()]] *)
Fixpoint label_lines (file_lines : list string) : list string :=
  match file_lines with
  | [] => []
  | line :: rest =>
      if PyStr.truthy (PyStr.strip line)
      then PyStr.lower (PyStr.strip line) :: label_lines rest
      else label_lines rest
  end.

(** The loop [for i, label in enumerate(lines)] of count_metrics, from
    index [i] on, with the matches counted so far. *)
Fixpoint count_loop (data : list CanonicalRecord) (i : nat)
    (lines : list string) (good_preds_count : nat) : io nat :=
  match lines with
  | [] => mret good_preds_count
  | label :: rest =>
      dict_i ← lift (index data i);
      let text := Readable.text dict_i in
      let predict := Readable.label dict_i in
      emit (Print (text +:+ " : " +:+ predict +:+ " : " +:+ label));;
      count_loop data (S i) rest
        (if String.eqb label predict then S good_preds_count
         else good_preds_count)
  end.

(** [labels_file] holds the lines of the file at [labels_path]. *)
Definition count_metrics (labels_file : list string)
    (data : list CanonicalRecord) : io nat :=
  let lines := label_lines labels_file in
  valid ← lift (check_labels lines);
  if negb valid then lift (Raise (ValueError WrongLabelsFormat))
  else count_loop data 0 lines 0.

Definition star_to_sentiment : gmap string string :=
  list_to_map
    [("1 star", value NEGATIVE); ("2 stars", value NEGATIVE);
     ("3 stars", value NEUTRAL);
     ("4 stars", value POSITIVE); ("5 stars", value POSITIVE)].

(** The loop of convert_to_readable over [zip(texts, predicts)], appending
    to [readable_results]. *)
Fixpoint convert_loop (pairs : list (string * RawPrediction))
    (readable_results : list CanonicalRecord) : result (list CanonicalRecord) :=
  match pairs with
  | [] => Ok readable_results
  | (text, pred) :: rest =>
      let label := Raw.label pred in
      let score := Raw.score pred in
      sentiment ← getitem star_to_sentiment label;
      convert_loop rest
        (readable_results ++
           [{| Readable.text := text; Readable.label := sentiment;
               Readable.confidence := round score 4 |}])
  end.

Definition convert_to_readable (predicts : list RawPrediction)
    (texts : list string) : result (list CanonicalRecord) :=
  convert_loop (zip texts predicts) [].

(** The scoring step of sentiment_classification:
    [good_preds_count = count_metrics(opts.labels_path, readable_predicts)]
    and [accuracy = float(good_preds_count)/len(readable_predicts)
    if readable_predicts else 0]. *)
Definition accuracy_step (labels_file : list string)
    (readable_predicts : list CanonicalRecord) : io pynum :=
  good_preds_count ← count_metrics labels_file readable_predicts;
  mret (match readable_predicts with
        | [] => PyInt 0
        | _ => PyFloat (inject_Z (Z.of_nat good_preds_count)
                        / inject_Z (Z.of_nat (length readable_predicts)))%Q
        end).

(** [[line.strip() for line in file.readlines() if line.strip()]] *)
Fixpoint data_lines (file_lines : list string) : list string :=
  match file_lines with
  | [] => []
  | line :: rest =>
      if PyStr.truthy (PyStr.strip line)
      then PyStr.strip line :: data_lines rest
      else data_lines rest
  end.

Section Pipeline.

(** The pretrained classifier, an opaque batch function; loading it is taken
    to succeed. *)
Variable classifier : list string → list RawPrediction.

(** A file that exists is [Some] of its lines. *)
Definition sentiment_classification
    (data_file labels_file : option (list string)) : io unit :=
  match data_file, labels_file with
  | None, _ => lift (Raise (FileMissing "data_path"))
  | Some _, None => lift (Raise (FileMissing "labels_path"))
  | Some data, Some labels =>
      emit (PrintBanner Processing);;
      let lines := data_lines data in
      let predicts := classifier lines in
      readable_predicts ← lift (convert_to_readable predicts lines);
      analysis.analyze_predictions_distribution predicts;;
      emit (PrintBanner ClassificationResults);;
      emit (Print (PyStr.times "-" 50));;
      emit (Print "<phrase> : <predict> : <label>");;
      accuracy ← accuracy_step labels readable_predicts;
      emit (Print (PyStr.times "-" 50));;
      emit (PrintAccuracy accuracy)
  end.

End Pipeline.

End main.

(** ** The specification's vocabulary *)

(** The three canonical sentiment labels. *)
Definition canonical (s : string) : Prop :=
  s = "positive" ∨ s = "negative" ∨ s = "neutral".

#[global] Instance canonical_dec s : Decision (canonical s).
Proof. unfold canonical. apply _. Defined.

(** The five star tokens of the classifier. *)
Definition star_tokens : list string :=
  ["1 star"; "2 stars"; "3 stars"; "4 stars"; "5 stars"].

(** The gold-label preprocessing in the specification's words: trim every
    line, drop the lines that are empty after trimming, lowercase the rest. *)
Definition preprocess_spec (file_lines : list string) : list string :=
  map PyStr.lower
    (List.filter PyStr.truthy (map PyStr.strip file_lines)).

(** The label mapper in the specification's words. *)
Definition label_mapper_spec (raw : string) : result string :=
  if decide (raw = "1 star" ∨ raw = "2 stars") then Ok "negative"
  else if decide (raw = "3 stars") then Ok "neutral"
  else if decide (raw = "4 stars" ∨ raw = "5 stars") then Ok "positive"
  else Raise (KeyError raw).

(** [records[i].label == gold[i]], for an index of both sequences. *)
Definition match_at (records : list CanonicalRecord) (gold : list string)
    (i : nat) : bool :=
  match records !! i, gold !! i with
  | Some r, Some g => String.eqb (Readable.label r) g
  | _, _ => false
  end.

(** The number of indices below [len(records)] at which record and gold
    label agree. *)
Definition matches (records : list CanonicalRecord) (gold : list string) : nat :=
  length (List.filter (match_at records gold) (seq 0 (length records))).

(** The line count_metrics prints for one record and its gold label. *)
Definition score_line (p : CanonicalRecord * string) : output :=
  Print (Readable.text p.1 +:+ " : " +:+ Readable.label p.1 +:+ " : " +:+ p.2).

(** The matches among paired records and gold labels. *)
Definition count_matches (pairs : list (CanonicalRecord * string)) : nat :=
  length (List.filter (fun p => String.eqb p.2 (Readable.label p.1)) pairs).

(** The category and star lines of a printed report, in order. *)
Definition category_rows (out : list output) : list (string * nat) :=
  omap (fun o => match o with
                 | PrintCategory c n _ => Some (c, n)
                 | _ => None
                 end) out.

Definition star_rows (out : list output) : list (Z * nat) :=
  omap (fun o => match o with
                 | PrintStar s n _ => Some (s, n)
                 | _ => None
                 end) out.

(** The data of the two bar charts. *)
Definition category_bars (out : list output) : list (list string * list nat) :=
  omap (fun o => match o with
                 | BarCategories cs ns => Some (cs, ns)
                 | _ => None
                 end) out.

Definition star_bars (out : list output) : list (list Z * list nat) :=
  omap (fun o => match o with
                 | BarStars ss ns => Some (ss, ns)
                 | _ => None
                 end) out.

(** Occurrences of [x] in [l]. *)
Definition occurrences `{EqDecision A} (x : A) (l : list A) : nat :=
  length (filter (x =.) l).

(** The accuracy in the specification's words: the matches divided by the
    number of records, and zero when there is no record. *)
Definition accuracy_spec (records : list CanonicalRecord) (gold : list string) : Q :=
  if decide (length records = 0%nat) then 0%Q
  else (inject_Z (Z.of_nat (matches records gold))
        / inject_Z (Z.of_nat (length records)))%Q.

(** The readable record of a text and its prediction, in the specification's
    words: the text, the mapped label, the score rounded to 4 decimals. *)
Definition readable_of (t : string) (p : RawPrediction) (r : CanonicalRecord) : Prop :=
  Readable.text r = t
  ∧ label_mapper_spec (Raw.label p) = Ok (Readable.label r)
  ∧ Readable.confidence r = round (Raw.score p) 4.

(** The share of [count] in [total], in percent. *)
Definition percent (count total : nat) : Q :=
  (inject_Z (Z.of_nat count) / inject_Z (Z.of_nat total) * 100)%Q.

(** The report line of one star value and of one category. *)
Definition star_line (numeric_scores : list Z) (total : nat) (star : Z) : output :=
  PrintStar star (occurrences star numeric_scores)
    (percent (occurrences star numeric_scores) total).

Definition category_line (categories : list string) (total : nat)
    (category : string) : output :=
  PrintCategory category (occurrences category categories)
    (percent (occurrences category categories) total).

(** What analyze_predictions_distribution writes for a batch of [total]
    predictions with the star values [stars] and the sentiments
    [categories]. *)
Definition distribution_report (stars : list Z) (categories : list string)
    (total : nat) : list output :=
  let keys := analysis.sorted_keys (analysis.Counter stars) in
  [Print (PyStr.LF +:+ PyStr.times "=" 50);
   PrintBanner DistributionTitle;
   Print (PyStr.times "=" 50);
   BarStars keys (map (fun s => occurrences s stars) keys);
   BarCategories analysis.categories_list
     (map (fun c => occurrences c categories) analysis.categories_list);
   PrintBanner StatisticsTitle;
   Print (PyStr.times "-" 40);
   PrintBanner ByStars]
  ++ map (star_line stars total) keys
  ++ [PrintBanner ByCategories]
  ++ map (category_line categories total) analysis.categories_list
  ++ [PrintTotal total;
      PrintMean (np_mean (map inject_Z stars));
      PrintMedian (np_median (map inject_Z stars))].

(** Whitespace only. *)
Fixpoint all_space (s : string) : bool :=
  match s with
  | "" => true
  | String c s' => PyStr.isspace c && all_space s'
  end.

Definition first_char (s : string) : option ascii :=
  match s with
  | "" => None
  | String c _ => Some c
  end.

Fixpoint last_char (s : string) : option ascii :=
  match s with
  | "" => None
  | String c "" => Some c
  | String _ s' => last_char s'
  end.

(** [c] is [x] rounded to 4 decimals: the multiple of 1/10000 nearest to
    [x], and the even multiple when [x] lies halfway between two. *)
Definition rounded_to_4_decimals (x c : Q) : Prop :=
  ∃ k : Z,
    c = (inject_Z k / inject_Z 10000)%Q
    ∧ (inject_Z k - (1 # 2) <= x * inject_Z 10000
       ∧ x * inject_Z 10000 <= inject_Z k + (1 # 2))%Q
    ∧ ((x * inject_Z 10000 == inject_Z k + (1 # 2)
        ∨ x * inject_Z 10000 == inject_Z k - (1 # 2))%Q → Z.even k = true).

(** The whitespace characters below 256, by code point: TAB, LF, VT, FF, CR,
    FS, GS, RS, US, space, NEL and the no-break space. *)
Definition whitespace_codes : list N :=
  [9; 10; 11; 12; 13; 28; 29; 30; 31; 32; 133; 160]%N.

Definition whitespace (c : ascii) : Prop := N_of_ascii c ∈ whitespace_codes.

(** The capital letters below 256, by code point: A..Z and the Latin-1
    capitals from 192 to 222, the multiplication sign 215 apart. *)
Definition capital (c : ascii) : Prop :=
  (65 ≤ N_of_ascii c ∧ N_of_ascii c ≤ 90)%N
  ∨ (192 ≤ N_of_ascii c ∧ N_of_ascii c ≤ 222 ∧ N_of_ascii c ≠ 215)%N.

#[global] Instance capital_dec c : Decision (capital c).
Proof. unfold capital. apply _. Defined.

Fixpoint whitespace_only (s : string) : Prop :=
  match s with
  | "" => True
  | String c s' => whitespace c ∧ whitespace_only s'
  end.

#[global] Instance whitespace_only_dec s : Decision (whitespace_only s).
Proof. induction s; simpl; apply _. Defined.

(** [core] is [line] without the whitespace at its two ends. *)
Definition trimmed_of (line core : string) : Prop :=
  (∃ a b, line = a +:+ core +:+ b ∧ whitespace_only a ∧ whitespace_only b)
  ∧ (∀ c, first_char core = Some c → ¬ whitespace c)
  ∧ (∀ c, last_char core = Some c → ¬ whitespace c).

(** [t] is [s] with every capital letter replaced by its small letter, 32
    code points further, and every other character kept. *)
Fixpoint lowercase_of (s t : string) : Prop :=
  match s, t with
  | "", "" => True
  | String c s', String d t' =>
      N_of_ascii d = (if decide (capital c) then N_of_ascii c + 32
                      else N_of_ascii c)%N
      ∧ lowercase_of s' t'
  | _, _ => False
  end.

(** The star value of a token, in the specification's words: the integer 1
    to 5 the token names. *)
Definition star_value_spec (raw : string) : option Z :=
  if decide (raw = "1 star") then Some 1
  else if decide (raw = "2 stars") then Some 2
  else if decide (raw = "3 stars") then Some 3
  else if decide (raw = "4 stars") then Some 4
  else if decide (raw = "5 stars") then Some 5
  else None.

(** A line is blank when nothing is left of it after [strip]. *)
Definition blank (line : string) : Prop := PyStr.strip line = "".

(** ** Sample data: the end-to-end scenario of the specification *)

Definition sample_texts : list string := ["great phone"; "terrible phone"].

Definition sample_predictions : list RawPrediction :=
  [{| Raw.label := "5 stars"; Raw.score := (92 # 100)%Q |};
   {| Raw.label := "1 star"; Raw.score := (88 # 100)%Q |}].

Definition sample_records : list CanonicalRecord :=
  [{| Readable.text := "great phone"; Readable.label := "positive";
      Readable.confidence := (92 # 100)%Q |};
   {| Readable.text := "terrible phone"; Readable.label := "negative";
      Readable.confidence := (88 # 100)%Q |}].

(** A gold file of two lines, with mixed case, padding and a blank line. *)
Definition sample_gold_file : list string :=
  ["Positive" +:+ PyStr.LF; "  " +:+ PyStr.LF; " NEGATIVE "].

(** A gold file with one line only. *)
Definition short_gold_file : list string := ["positive" +:+ PyStr.LF].

(** A gold file with three valid lines. *)
Definition long_gold_file : list string :=
  ["positive" +:+ PyStr.LF; "negative" +:+ PyStr.LF; "neutral" +:+ PyStr.LF].

(** A gold file whose second line is misspelt. *)
Definition misspelt_gold_file : list string :=
  ["positive" +:+ PyStr.LF; "neutrall" +:+ PyStr.LF; "negative" +:+ PyStr.LF].

(** A data file of two phrases around a blank line. *)
Definition sample_data_file : list string :=
  ["great phone" +:+ PyStr.LF; PyStr.LF; "  terrible phone " +:+ PyStr.LF].

(** A stand-in for the classifier: five stars for the first sample phrase,
    one star for any other. *)
Definition toy_classifier (texts : list string) : list RawPrediction :=
  map (fun t => if decide (t = "great phone")
                then {| Raw.label := "5 stars"; Raw.score := (92 # 100)%Q |}
                else {| Raw.label := "1 star"; Raw.score := (88 # 100)%Q |})
    texts.

(** A stand-in that answers outside the five star tokens. *)
Definition stray_classifier (texts : list string) : list RawPrediction :=
  map (fun _ => {| Raw.label := "LABEL_0"; Raw.score := (5 # 10)%Q |}) texts.

(** Closed decidable facts, by evaluation. *)
Ltac by_decide :=
  lazymatch goal with
  | |- ?P => apply (@bool_decide_unpack P _); vm_compute; exact I
  end.

(** ** Strings *)

Lemma lower_length s : String.length (PyStr.lower s) = String.length s.
Proof. induction s as [|c s IH]; simpl; congruence. Qed.

Lemma lower_truthy s : PyStr.truthy (PyStr.lower s) = PyStr.truthy s.
Proof. by destruct s. Qed.

Lemma truthy_nonempty s : PyStr.truthy s = true ↔ s ≠ "".
Proof. destruct s; simpl; split; congruence. Qed.

Lemma app_String c s t : String c s +:+ t = String c (s +:+ t).
Proof. reflexivity. Qed.

Lemma lstrip_decompose s :
  ∃ a, s = a +:+ PyStr.lstrip s ∧ all_space a = true.
Proof.
  induction s as [|c s (a & Ha & Hs)]; [by exists ""|]. simpl.
  destruct (PyStr.isspace c) eqn:Hc.
  - exists (String c a). simpl. rewrite Hc, Hs, app_String, <- Ha. done.
  - by exists "".
Qed.

Lemma rstrip_decompose s :
  ∃ b, s = PyStr.rstrip s +:+ b ∧ all_space b = true.
Proof.
  induction s as [|c s (b & Hb & Hs)]; [by exists ""|]. simpl.
  destruct (PyStr.rstrip s) as [|d t] eqn:Hr.
  - change ("" +:+ b) with b in Hb. subst b.
    destruct (PyStr.isspace c) eqn:Hc.
    + exists (String c s). simpl. by rewrite Hc, Hs.
    + by exists s.
  - exists b. split; [|done]. by rewrite app_String, <- Hb.
Qed.

Lemma lstrip_first s c :
  first_char (PyStr.lstrip s) = Some c → PyStr.isspace c = false.
Proof.
  induction s as [|d s IH]; [done|]. simpl.
  destruct (PyStr.isspace d) eqn:Hd; [done|]. by intros [= <-].
Qed.

Lemma rstrip_last s c :
  last_char (PyStr.rstrip s) = Some c → PyStr.isspace c = false.
Proof.
  induction s as [|d s IH]; [done|]. simpl.
  destruct (PyStr.rstrip s) as [|e t] eqn:Hr.
  - destruct (PyStr.isspace d) eqn:Hd; [done|]. by intros [= <-].
  - exact IH.
Qed.

Lemma rstrip_first s c :
  PyStr.isspace c = false →
  first_char s = Some c → first_char (PyStr.rstrip s) = Some c.
Proof.
  destruct s as [|d s]; [done|]. intros Hc [= ->]. simpl.
  destruct (PyStr.rstrip s); [by rewrite Hc|done].
Qed.

(** [strip] removes a run of whitespace at each end and nothing else, and
    what is left neither starts nor ends with whitespace. *)
Lemma strip_trims s :
  (∃ a b, s = a +:+ PyStr.strip s +:+ b
          ∧ all_space a = true ∧ all_space b = true)
  ∧ (∀ c, first_char (PyStr.strip s) = Some c → PyStr.isspace c = false)
  ∧ (∀ c, last_char (PyStr.strip s) = Some c → PyStr.isspace c = false).
Proof.
  unfold PyStr.strip. split; [|split].
  - destruct (lstrip_decompose s) as (a & Ha & Hsa).
    destruct (rstrip_decompose (PyStr.lstrip s)) as (b & Hb & Hsb).
    exists a, b. split; [|done]. by rewrite <- Hb.
  - intros c Hc. destruct (PyStr.lstrip s) as [|d t] eqn:Hl; [done|].
    destruct (PyStr.isspace d) eqn:Hd.
    + pose proof (lstrip_first s d) as Hf. rewrite Hl in Hf.
      rewrite Hf in Hd; done.
    + rewrite (rstrip_first (String d t) d Hd eq_refl) in Hc. by injection Hc as <-.
  - apply rstrip_last.
Qed.

(** ** Numbers *)

Lemma round_half_even_near q :
  (inject_Z (round_half_even q) - (1 # 2) <= q
   ∧ q <= inject_Z (round_half_even q) + (1 # 2))%Q.
Proof.
  unfold round_half_even.
  pose proof (Qfloor_le q) as Hlo. pose proof (Qlt_floor q) as Hhi.
  rewrite inject_Z_plus in Hhi. change (inject_Z 1) with 1%Q in Hhi.
  destruct (Qcompare_spec (q - inject_Z (Qfloor q)) (1 # 2)) as [He|Hl|Hg].
  - destruct (Z.even (Qfloor q)).
    + split; lra.
    + rewrite inject_Z_plus. change (inject_Z 1) with 1%Q. split; lra.
  - split; lra.
  - rewrite inject_Z_plus. change (inject_Z 1) with 1%Q. split; lra.
Qed.

(** [round(x, 4)] is a multiple of 1/10000 at most half of 1/10000 away
    from [x]. *)
Lemma round_4_decimals x :
  (∃ k : Z, round x 4 = (inject_Z k / inject_Z 10000)%Q)
  ∧ (round x 4 - (1 # 20000) <= x ∧ x <= round x 4 + (1 # 20000))%Q.
Proof.
  unfold round. change (10 ^ Z.of_nat 4) with 10000.
  split; [by eexists|].
  destruct (round_half_even_near (x * inject_Z 10000)) as [Hlo Hhi].
  change (inject_Z 10000) with (10000 # 1)%Q in *.
  unfold Qdiv. change (/ (10000 # 1))%Q with (1 # 10000)%Q.
  split; lra.
Qed.

Example round_ties_to_even :
  round (12345 # 100000) 4 = (1234 # 10000)%Q
  ∧ round (12355 # 100000) 4 = (1236 # 10000)%Q
  ∧ round (92 # 100) 4 = (9200 # 10000)%Q.
Proof. by vm_compute. Qed.

(** ** Gold labels: [Labels], [check_labels] *)

Lemma Labels_call_value m : main.Labels_call (main.value m) = Ok m.
Proof. by destruct m. Qed.

Lemma Labels_call_spec v :
  (canonical v ∧ ∃ m, main.value m = v ∧ main.Labels_call v = Ok m)
  ∨ (¬ canonical v ∧ main.Labels_call v = Raise (ValueError (NotAValidLabels v))).
Proof.
  unfold main.Labels_call, main.Labels_members, canonical.
  cbn [List.find main.value].
  destruct (String.eqb_spec "positive" v) as [<-|Hp].
  { left; split; [auto|]. by exists main.POSITIVE. }
  destruct (String.eqb_spec "negative" v) as [<-|Hn].
  { left; split; [auto|]. by exists main.NEGATIVE. }
  destruct (String.eqb_spec "neutral" v) as [<-|Hu].
  { left; split; [auto|]. by exists main.NEUTRAL. }
  right; split; [|done]. intros [->|[->| ->]]; congruence.
Qed.

(** The test of the [if] in check_labels is false on every member. *)
Lemma member_test_false (m : main.Labels) :
  bool_decide (m ≠ main.POSITIVE) && bool_decide (m ≠ main.NEGATIVE)
  && bool_decide (m ≠ main.NEUTRAL) = false.
Proof. by destruct m. Qed.

Lemma check_labels_cons v rest :
  main.check_labels (v :: rest) =
    if decide (canonical v) then main.check_labels rest
    else Raise (ValueError (NotAValidLabels v)).
Proof.
  simpl. destruct (Labels_call_spec v) as [[Hc (m & _ & ->)]|[Hc ->]]; simpl.
  - rewrite member_test_false. by rewrite decide_True.
  - by rewrite decide_False.
Qed.

Lemma check_labels_valid labels :
  Forall canonical labels → main.check_labels labels = Ok true.
Proof.
  induction 1 as [|v rest Hv _ IH]; [done|].
  by rewrite check_labels_cons, decide_True.
Qed.

Lemma check_labels_invalid labels :
  ¬ Forall canonical labels →
  ∃ good bad rest,
    labels = good ++ bad :: rest ∧ Forall canonical good ∧ ¬ canonical bad ∧
    main.check_labels labels = Raise (ValueError (NotAValidLabels bad)).
Proof.
  induction labels as [|v rest IH]; intros Hn.
  { destruct Hn. constructor. }
  rewrite check_labels_cons. destruct (decide (canonical v)) as [Hv|Hv].
  - destruct IH as (good & bad & tl & -> & Hg & Hb & Hr).
    { intros Hrest. apply Hn. by constructor. }
    exists (v :: good), bad, tl. repeat split; auto.
  - exists [], v, rest. repeat split; auto.
Qed.

(** ** The [io] monad *)

Lemma bind_lift_ok {A B} (a : A) (f : A → io B) : lift (Ok a) ≫= f = f a.
Proof. unfold mbind, io_bind, lift. by destruct (f a). Qed.

Lemma bind_lift_raise {A B} e (f : A → io B) :
  lift (Raise e) ≫= f = ([], Raise e).
Proof. done. Qed.

Lemma bind_emit {B} o (f : unit → io B) :
  emit o ≫= f = ((o :: (f tt).1), (f tt).2).
Proof. unfold mbind, io_bind, emit. by destruct (f tt). Qed.

Lemma bind_run {A B} (m : io A) (f : A → io B) out a :
  m = (out, Ok a) → m ≫= f = (out ++ (f a).1, (f a).2).
Proof. intros ->. unfold mbind, io_bind. by destruct (f a). Qed.

Lemma bind_fail {A B} (m : io A) (f : A → io B) out e :
  m = (out, Raise e) → m ≫= f = (out, Raise e).
Proof. by intros ->. Qed.

(** ** Gold labels: preprocessing *)

Lemma label_lines_preprocess file_lines :
  main.label_lines file_lines = preprocess_spec file_lines.
Proof.
  unfold preprocess_spec.
  induction file_lines as [|line rest IH]; [done|]. simpl.
  destruct (PyStr.truthy (PyStr.strip line)); simpl; by rewrite IH.
Qed.

Lemma label_lines_nonempty file_lines l :
  l ∈ main.label_lines file_lines → l ≠ "".
Proof.
  induction file_lines as [|line rest IH]; simpl.
  { by intros ?%elem_of_nil. }
  destruct (PyStr.truthy (PyStr.strip line)) eqn:Ht; [|done].
  intros [->|?]%elem_of_cons; [|auto].
  apply truthy_nonempty. by rewrite lower_truthy.
Qed.

Lemma label_lines_app l1 l2 :
  main.label_lines (l1 ++ l2) = main.label_lines l1 ++ main.label_lines l2.
Proof.
  induction l1 as [|line rest IH]; [done|]. simpl.
  destruct (PyStr.truthy (PyStr.strip line)); simpl; by rewrite IH.
Qed.

Lemma label_lines_length file_lines :
  length (main.label_lines file_lines)
  = length (List.filter (fun line => PyStr.truthy (PyStr.strip line)) file_lines).
Proof.
  induction file_lines as [|line rest IH]; [done|]. simpl.
  destruct (PyStr.truthy (PyStr.strip line)); simpl; by rewrite IH.
Qed.

(** ** The scoring loop *)

Lemma count_matches_cons r g pairs :
  count_matches ((r, g) :: pairs) =
    ((if String.eqb g (Readable.label r) then 1 else 0) + count_matches pairs)%nat.
Proof. unfold count_matches. simpl. by destruct (String.eqb _ _). Qed.

(** The loop prints one line per pair of a record and a gold label, then
    returns the matches, or runs out of records. *)
Lemma count_loop_run data lines i good :
  main.count_loop data i lines good =
    (map score_line (zip (drop i data) lines),
     if decide (length lines ≤ length (drop i data))%nat
     then Ok (good + count_matches (zip (drop i data) lines))%nat
     else Raise IndexError).
Proof.
  revert i good. induction lines as [|label rest IH]; intros i good.
  { cbn [main.count_loop]. rewrite decide_True by (simpl; lia).
    assert (zip (drop i data) [] = @nil (CanonicalRecord * string)) as ->
      by (by destruct (drop i data)).
    unfold count_matches. simpl. unfold mret, io_ret. do 2 f_equal. lia. }
  simpl main.count_loop. unfold index.
  destruct (data !! i) as [r|] eqn:Hl.
  - rewrite (drop_S _ _ _ Hl), IH.
    simpl zip. simpl map. rewrite count_matches_cons. simpl length.
    unfold score_line at 1. simpl. f_equal.
    destruct (decide (length rest ≤ length (drop (S i) data))%nat).
    + rewrite decide_True by lia. f_equal.
      destruct (String.eqb label (Readable.label r)); lia.
    + by rewrite decide_False by lia.
  - rewrite (drop_ge data i) by by apply lookup_ge_None.
    by rewrite decide_False by (simpl; lia).
Qed.

Lemma count_metrics_valid labels_file data :
  Forall canonical (main.label_lines labels_file) →
  main.count_metrics labels_file data
  = main.count_loop data 0 (main.label_lines labels_file) 0.
Proof.
  intros Hv. unfold main.count_metrics.
  by rewrite (check_labels_valid _ Hv), bind_lift_ok.
Qed.

Lemma count_metrics_raise labels_file data e :
  main.check_labels (main.label_lines labels_file) = Raise e →
  main.count_metrics labels_file data = ([], Raise e).
Proof. intros Hr. unfold main.count_metrics. by rewrite Hr. Qed.

Lemma filter_map_length {A B} (f : B → bool) (g : A → B) l :
  length (List.filter f (map g l))
  = length (List.filter (fun x => f (g x)) l).
Proof.
  induction l as [|x l IH]; [done|]. simpl.
  destruct (f (g x)); simpl; by rewrite IH.
Qed.

Lemma filter_none_length {A} (f : A → bool) l :
  (∀ x, f x = false) → length (List.filter f l) = 0%nat.
Proof.
  intros Hf. induction l as [|x l IH]; [done|]. simpl. by rewrite Hf.
Qed.

Lemma match_at_no_gold records i : match_at records [] i = false.
Proof. unfold match_at. by destruct (records !! i). Qed.

(** Counting along the zipped sequences is counting the agreeing indices. *)
Lemma count_matches_indices records gold :
  count_matches (zip records gold) = matches records gold.
Proof.
  unfold matches. revert gold.
  induction records as [|r records IH]; intros gold; [done|].
  destruct gold as [|g gold].
  - rewrite filter_none_length; [done|]. apply match_at_no_gold.
  - simpl zip. rewrite count_matches_cons, IH.
    cbn [length seq]. rewrite <- seq_shift.
    cbn [List.filter]. change (match_at (r :: records) (g :: gold) 0)
      with (String.eqb (Readable.label r) g).
    rewrite (String.eqb_sym g).
    destruct (String.eqb (Readable.label r) g); simpl length;
      rewrite filter_map_length; done.
Qed.

(** With valid gold labels the scoring step prints one line per pair and
    divides the matches by the number of records, or runs out of records. *)
Lemma accuracy_step_valid labels_file records :
  let gold := main.label_lines labels_file in
  Forall canonical gold →
  main.accuracy_step labels_file records =
    (map score_line (zip records gold),
     if decide (length gold ≤ length records)%nat
     then Ok (match records with
             | [] => PyInt 0
             | _ => PyFloat (inject_Z (Z.of_nat (matches records gold))
                             / inject_Z (Z.of_nat (length records)))%Q
             end)
     else Raise IndexError).
Proof.
  intros gold Hv. unfold main.accuracy_step.
  rewrite (count_metrics_valid _ _ Hv), count_loop_run, drop_0.
  fold gold. rewrite count_matches_indices.
  destruct (decide (length gold ≤ length records)%nat); simpl.
  - by rewrite app_nil_r.
  - done.
Qed.

(** ** Claims on gold-label validation *)

(** C10. For every list of strings, check_labels returns True when every
    element is one of the three label values, and otherwise raises the
    ValueError of the [Labels] constructor at the first element that is not;
    it never returns False, since the test after the conversion is false on
    every member of [Labels]. *)
Theorem check_labels_true_or_raises (labels : list string) :
  ((Forall canonical labels ∧ main.check_labels labels = Ok true)
   ∨ (¬ Forall canonical labels
      ∧ ∃ v, v ∈ labels ∧ ¬ canonical v
             ∧ main.check_labels labels = Raise (ValueError (NotAValidLabels v))))
  ∧ main.check_labels labels ≠ Ok false
  ∧ (∀ v m, main.Labels_call v = Ok m →
       bool_decide (m ≠ main.POSITIVE) && bool_decide (m ≠ main.NEGATIVE)
       && bool_decide (m ≠ main.NEUTRAL) = false).
Proof.
  assert ((Forall canonical labels ∧ main.check_labels labels = Ok true)
   ∨ (¬ Forall canonical labels
      ∧ ∃ v, v ∈ labels ∧ ¬ canonical v
             ∧ main.check_labels labels = Raise (ValueError (NotAValidLabels v))))
    as Hcases.
  { destruct (decide (Forall canonical labels)) as [Hv|Hn].
    - left. split; [done|]. by apply check_labels_valid.
    - right. split; [done|].
      destruct (check_labels_invalid _ Hn) as (good & bad & rest & -> & _ & Hb & Hr).
      exists bad. split; [|done]. apply elem_of_app. right. apply elem_of_cons. by left. }
  split; [exact Hcases|]. split.
  - destruct Hcases as [[_ ->]|[_ (v & _ & _ & ->)]]; discriminate.
  - intros v m _. apply member_test_false.
Qed.

(** C4. When a line of the gold file, trimmed and lowercased, is not one of
    positive, negative, neutral, validation raises the ValueError of the first
    such line, whatever the other lines are; count_metrics and the scoring
    step raise it too, with nothing printed: no prefix is scored. *)
Theorem invalid_gold_line_rejects_batch
    (labels_file : list string) (data : list CanonicalRecord) (line : string) :
  let gold := main.label_lines labels_file in
  line ∈ gold → ¬ canonical line →
  ∃ bad, bad ∈ gold ∧ ¬ canonical bad
    ∧ main.check_labels gold = Raise (ValueError (NotAValidLabels bad))
    ∧ main.count_metrics labels_file data
      = ([], Raise (ValueError (NotAValidLabels bad)))
    ∧ main.accuracy_step labels_file data
      = ([], Raise (ValueError (NotAValidLabels bad))).
Proof.
  intros gold Hin Hline.
  assert (¬ Forall canonical gold) as Hn.
  { intros Hall. apply Hline. by apply (proj1 (Forall_forall _ _) Hall). }
  destruct (check_labels_invalid _ Hn) as (good & bad & rest & Hg & _ & Hb & Hr).
  exists bad. split.
  { rewrite Hg. apply elem_of_app. right. apply elem_of_cons. by left. }
  split; [done|]. split; [done|].
  assert (main.count_metrics labels_file data
          = ([], Raise (ValueError (NotAValidLabels bad)))) as Hc
    by by apply count_metrics_raise.
  split; [done|]. unfold main.accuracy_step. by rewrite Hc.
Qed.

(** The misspelt gold file of three lines is rejected as a whole. *)
Lemma invalid_gold_line_rejects_batch_witness :
  ∃ bad, bad ∈ main.label_lines misspelt_gold_file ∧ ¬ canonical bad
    ∧ main.check_labels (main.label_lines misspelt_gold_file)
      = Raise (ValueError (NotAValidLabels bad))
    ∧ main.count_metrics misspelt_gold_file sample_records
      = ([], Raise (ValueError (NotAValidLabels bad)))
    ∧ main.accuracy_step misspelt_gold_file sample_records
      = ([], Raise (ValueError (NotAValidLabels bad))).
Proof.
  apply (invalid_gold_line_rejects_batch misspelt_gold_file sample_records
           "neutrall").
  - vm_compute. apply list_elem_of_further, list_elem_of_here.
  - intros [H|[H|H]]; discriminate H.
Defined.

(** ** Claims on scoring *)

(** C2. For a gold file whose lines are all valid and as many as the records,
    the scoring step returns the number of indices at which the record's label
    equals the gold label, divided by the number of records, and zero when
    there is no record; it prints one line per record. *)
Theorem accuracy_is_match_ratio
    (labels_file : list string) (records : list CanonicalRecord) :
  let gold := main.label_lines labels_file in
  Forall canonical gold → length records = length gold →
  ∃ score,
    main.accuracy_step labels_file records
    = (map score_line (zip records gold), Ok score)
    ∧ pynum_value score = accuracy_spec records gold
    ∧ (records = [] → score = PyInt 0)
    ∧ (records ≠ [] →
       score = PyFloat (inject_Z (Z.of_nat (matches records gold))
                        / inject_Z (Z.of_nat (length records)))%Q).
Proof.
  intros gold Hv Hlen.
  pose proof (accuracy_step_valid labels_file records Hv) as Hs.
  fold gold in Hs. rewrite decide_True in Hs by lia.
  eexists. split; [exact Hs|]. unfold accuracy_spec.
  destruct records as [|r records].
  - by rewrite decide_True.
  - by rewrite decide_False.
Qed.

(** The two sample records against the two lines of the sample gold file. *)
Lemma accuracy_is_match_ratio_witness :
  ∃ score,
    main.accuracy_step sample_gold_file sample_records
    = (map score_line (zip sample_records (main.label_lines sample_gold_file)),
       Ok score)
    ∧ pynum_value score
      = accuracy_spec sample_records (main.label_lines sample_gold_file)
    ∧ (sample_records = [] → score = PyInt 0)
    ∧ (sample_records ≠ [] →
       score = PyFloat (inject_Z (Z.of_nat (matches sample_records
                                      (main.label_lines sample_gold_file)))
                        / inject_Z (Z.of_nat (length sample_records)))%Q).
Proof.
  apply (accuracy_is_match_ratio sample_gold_file sample_records).
  - by_decide.
  - reflexivity.
Defined.

(** C5. There is a gold file with more valid lines than there are records on
    which count_metrics raises IndexError, after printing a line for each
    record: the loop indexes the records with the position in the gold file
    and nothing compares the lengths first. *)
Theorem more_gold_than_records_index_error :
  ∃ labels_file data out,
    (length data < length (main.label_lines labels_file))%nat
    ∧ Forall canonical (main.label_lines labels_file)
    ∧ main.count_metrics labels_file data = (out, Raise IndexError)
    ∧ length out = length data.
Proof.
  exists long_gold_file, sample_records. eexists.
  split; [vm_compute; lia|]. split; [by_decide|].
  split; reflexivity.
Qed.

(** C1, as the code has it. For a gold file whose lines are all valid and
    whose number of lines differs from the number of records, no error
    reports the two counts: with more gold lines than records the scoring
    step raises IndexError after a line for each record; with fewer it
    returns the matches among the first [len(gold)] records divided by the
    number of records. *)
Theorem length_mismatch_behaviour
    (labels_file : list string) (records : list CanonicalRecord) :
  let gold := main.label_lines labels_file in
  Forall canonical gold → length records ≠ length gold →
  main.accuracy_step labels_file records
  = (map score_line (zip records gold),
     if decide (length gold < length records)%nat
     then Ok (PyFloat (inject_Z (Z.of_nat (matches records gold))
                       / inject_Z (Z.of_nat (length records)))%Q)
     else Raise IndexError)
  ∧ length (zip records gold) = (length records `min` length gold)%nat.
Proof.
  intros gold Hv Hlen. split; [|apply length_zip].
  pose proof (accuracy_step_valid labels_file records Hv) as Hs.
  fold gold in Hs. rewrite Hs. f_equal.
  destruct (decide (length gold < length records)%nat) as [Hlt|Hge].
  - rewrite decide_True by lia. destruct records; [simpl in Hlt; lia|done].
  - by rewrite decide_False by lia.
Qed.

(** The two sample records against a gold file of one line. *)
Lemma length_mismatch_behaviour_witness :
  main.accuracy_step short_gold_file sample_records
  = (map score_line (zip sample_records (main.label_lines short_gold_file)),
     if decide (length (main.label_lines short_gold_file)
                < length sample_records)%nat
     then Ok (PyFloat (inject_Z (Z.of_nat (matches sample_records
                                     (main.label_lines short_gold_file)))
                       / inject_Z (Z.of_nat (length sample_records)))%Q)
     else Raise IndexError)
  ∧ length (zip sample_records (main.label_lines short_gold_file))
    = (length sample_records `min` length (main.label_lines short_gold_file))%nat.
Proof.
  apply (length_mismatch_behaviour short_gold_file sample_records).
  - by_decide.
  - vm_compute. lia.
Defined.

(** C1, as stated, fails: with two records and a gold file of one valid
    line the lengths differ, yet the scoring step raises nothing and returns
    the score 1/2. *)
Lemma length_mismatch_returns_score :
  length sample_records = 2%nat
  ∧ length (main.label_lines short_gold_file) = 1%nat
  ∧ main.accuracy_step short_gold_file sample_records
    = ([Print "great phone : positive : positive"], Ok (PyFloat (1 # 2))).
Proof. repeat split. Qed.

(** ** The label mapping *)

Lemma star_token_cases raw :
  raw ∈ star_tokens ↔
  raw = "1 star" ∨ raw = "2 stars" ∨ raw = "3 stars" ∨ raw = "4 stars"
  ∨ raw = "5 stars".
Proof.
  unfold star_tokens. rewrite !elem_of_cons, elem_of_nil. tauto.
Qed.

(** A dict of the five star tokens, looked up at any key. *)
Lemma getitem_star_dict {V} (v1 v2 v3 v4 v5 : V) raw :
  getitem (list_to_map [("1 star", v1); ("2 stars", v2); ("3 stars", v3);
                        ("4 stars", v4); ("5 stars", v5)]) raw
  = if decide (raw = "1 star") then Ok v1
    else if decide (raw = "2 stars") then Ok v2
    else if decide (raw = "3 stars") then Ok v3
    else if decide (raw = "4 stars") then Ok v4
    else if decide (raw = "5 stars") then Ok v5
    else Raise (KeyError raw).
Proof.
  unfold getitem. cbn [list_to_map foldr fst snd].
  repeat (case_decide;
          [subst raw; by rewrite lookup_insert_eq
          |rewrite lookup_insert_ne by done]).
  by rewrite lookup_empty.
Qed.

Lemma main_mapping raw :
  getitem main.star_to_sentiment raw = label_mapper_spec raw.
Proof.
  unfold main.star_to_sentiment, label_mapper_spec.
  rewrite getitem_star_dict. simpl main.value.
  repeat (case_decide; [by subst raw|]).
  by rewrite !decide_False by (by intros [?|?]).
Qed.

Lemma analysis_mapping raw :
  getitem analysis.star_to_sentiment raw = label_mapper_spec raw.
Proof.
  unfold analysis.star_to_sentiment, label_mapper_spec.
  rewrite getitem_star_dict.
  repeat (case_decide; [by subst raw|]).
  by rewrite !decide_False by (by intros [?|?]).
Qed.

Lemma label_mapper_defined raw :
  raw ∈ star_tokens → ∃ c, canonical c ∧ label_mapper_spec raw = Ok c.
Proof.
  rewrite star_token_cases. unfold canonical.
  intros [->|[->|[->|[->| ->]]]]; eexists; (split; [|reflexivity]); auto.
Qed.

Lemma label_mapper_undefined raw :
  raw ∉ star_tokens → label_mapper_spec raw = Raise (KeyError raw).
Proof.
  rewrite star_token_cases. intros Hn. unfold label_mapper_spec.
  repeat (case_decide; [tauto|]). done.
Qed.

(** C3. Both dicts that map star tokens to sentiments send "1 star" and
    "2 stars" to negative, "3 stars" to neutral, "4 stars" and "5 stars" to
    positive; a token has exactly one sentiment, the keys are the five tokens,
    and any other key raises KeyError: there is no default. *)
Theorem star_label_mapping (raw : string) :
  getitem main.star_to_sentiment raw = label_mapper_spec raw
  ∧ getitem analysis.star_to_sentiment raw = label_mapper_spec raw
  ∧ (raw ∈ star_tokens ↔ ∃ c, canonical c ∧ label_mapper_spec raw = Ok c)
  ∧ (raw ∉ star_tokens ↔ label_mapper_spec raw = Raise (KeyError raw))
  ∧ label_mapper_spec "1 star" = Ok "negative"
  ∧ label_mapper_spec "2 stars" = Ok "negative"
  ∧ label_mapper_spec "3 stars" = Ok "neutral"
  ∧ label_mapper_spec "4 stars" = Ok "positive"
  ∧ label_mapper_spec "5 stars" = Ok "positive".
Proof.
  split; [apply main_mapping|]. split; [apply analysis_mapping|].
  split; [|split; [|by repeat split]].
  - split; [apply label_mapper_defined|].
    intros (c & _ & Hc). destruct (decide (raw ∈ star_tokens)) as [|Hn]; [done|].
    rewrite (label_mapper_undefined _ Hn) in Hc. discriminate.
  - split; [apply label_mapper_undefined|].
    intros Hr Hin. destruct (label_mapper_defined _ Hin) as (c & _ & Hc).
    rewrite Hc in Hr. discriminate.
Qed.

(** ** convert_to_readable *)

Lemma convert_loop_run pairs acc :
  Forall (fun tp => Raw.label tp.2 ∈ star_tokens) pairs →
  ∃ rs, main.convert_loop pairs acc = Ok (acc ++ rs)
        ∧ Forall2 (fun tp r => readable_of tp.1 tp.2 r) pairs rs.
Proof.
  intros Hall. revert acc.
  induction Hall as [|[t p] pairs Hp _ IH]; intros acc.
  { exists []. split; [by rewrite app_nil_r|constructor]. }
  simpl in Hp. destruct (label_mapper_defined _ Hp) as (c & _ & Hc).
  cbn [main.convert_loop]. rewrite main_mapping, Hc. cbn [mbind result_bind].
  destruct (IH (acc ++ [{| Readable.text := t; Readable.label := c;
                           Readable.confidence := round (Raw.score p) 4 |}]))
    as (rs & -> & Hrs).
  eexists (_ :: rs). split; [by rewrite <- app_assoc|].
  constructor; [|done]. by repeat split.
Qed.

(** ** Loops and comprehensions *)

Lemma for_each_emit {A} (l : list A) (body : A → io unit) (g : A → output) :
  (∀ x, body x = ([g x], Ok tt)) → for_each l body = (map g l, Ok tt).
Proof.
  intros Hb. induction l as [|x l IH]; [done|].
  cbn [for_each]. rewrite Hb, IH. reflexivity.
Qed.

Lemma comprehension_ok {A B} (f : A → result B) (l : list A) :
  Forall (fun x => ∃ y, f x = Ok y) l →
  ∃ ys, comprehension f l = Ok ys ∧ Forall2 (fun x y => f x = Ok y) l ys.
Proof.
  induction 1 as [|x l [y Hy] _ (ys & Hys & Hall)].
  { exists []. by split; [|constructor]. }
  exists (y :: ys). split; [|by constructor].
  cbn [comprehension]. by rewrite Hy, Hys.
Qed.

Lemma omap_map_some {A B C} (f : B → option C) (g : A → B) (h : A → C) l :
  (∀ x, f (g x) = Some (h x)) → omap f (map g l) = map h l.
Proof.
  intros Hf. induction l as [|x l IH]; [done|].
  csimpl. by rewrite Hf, IH.
Qed.

Lemma omap_map_none {A B C} (f : B → option C) (g : A → B) l :
  (∀ x, f (g x) = None) → omap f (map g l) = [].
Proof.
  intros Hf. induction l as [|x l IH]; [done|].
  csimpl. by rewrite Hf, IH.
Qed.

(** ** Counters *)

Lemma Counter_count `{Countable A} (l : list A) (k : A) :
  analysis.count_of (analysis.Counter l) k = occurrences k l.
Proof.
  unfold analysis.count_of, analysis.Counter, occurrences.
  induction l as [|x l IH]; [done|].
  rewrite list_to_set_disj_cons, multiplicity_disj_union, IH.
  rewrite multiplicity_singleton, filter_cons.
  repeat case_decide; simpl; congruence.
Qed.

Lemma occurrences_pos `{EqDecision A} (x : A) l :
  x ∈ l ↔ (0 < occurrences x l)%nat.
Proof.
  unfold occurrences. induction l as [|y l IH].
  { rewrite elem_of_nil. simpl. lia. }
  rewrite elem_of_cons, filter_cons. case_decide; simpl.
  - split; [lia|auto].
  - rewrite IH. split; [by intros [?|?]|by right].
Qed.

Lemma sorted_keys_elem (l : list Z) (s : Z) :
  s ∈ analysis.sorted_keys (analysis.Counter l) ↔ s ∈ l.
Proof.
  unfold analysis.sorted_keys, analysis.Counter.
  rewrite merge_sort_Permutation, elem_of_elements, gmultiset_elem_of_dom.
  apply elem_of_list_to_set_disj.
Qed.

Lemma sorted_keys_NoDup (c : gmultiset Z) : NoDup (analysis.sorted_keys c).
Proof.
  unfold analysis.sorted_keys. rewrite merge_sort_Permutation.
  apply NoDup_elements.
Qed.

Lemma sorted_keys_Sorted (c : gmultiset Z) : Sorted Z.le (analysis.sorted_keys c).
Proof. apply (Sorted_merge_sort Z.le). Qed.

(** ** The distribution report *)

Lemma percentage_of_total count total :
  total ≠ 0%nat →
  analysis.percentage_of count total
  = Ok (inject_Z (Z.of_nat count) / inject_Z (Z.of_nat total) * 100)%Q.
Proof.
  intros Ht. unfold analysis.percentage_of, truediv.
  destruct (Z.eqb_spec (Z.of_nat total) 0) as [He|_]; [lia|done].
Qed.

Lemma star_number_defined raw :
  raw ∈ star_tokens → ∃ n, getitem analysis.star_to_number raw = Ok n.
Proof.
  rewrite star_token_cases. unfold analysis.star_to_number.
  intros [->|[->|[->|[->| ->]]]]; rewrite getitem_star_dict; by eexists.
Qed.

Lemma create_plots_run numeric_scores categories star_predictions :
  analysis._create_plots numeric_scores categories star_predictions
  = ([BarStars (analysis.sorted_keys (analysis.Counter numeric_scores))
        (map (fun s => occurrences s numeric_scores)
           (analysis.sorted_keys (analysis.Counter numeric_scores)));
      BarCategories analysis.categories_list
        (map (fun c => occurrences c categories) analysis.categories_list)],
     Ok tt).
Proof.
  unfold analysis._create_plots.
  rewrite (map_ext _ _ (Counter_count numeric_scores)).
  rewrite (map_ext _ _ (Counter_count categories)).
  reflexivity.
Qed.

Lemma print_statistics_run numeric_scores categories total :
  total ≠ 0%nat →
  analysis._print_statistics numeric_scores categories total
  = (PrintBanner StatisticsTitle :: Print (PyStr.times "-" 40)
     :: PrintBanner ByStars
     :: map (star_line numeric_scores total)
          (analysis.sorted_keys (analysis.Counter numeric_scores))
     ++ PrintBanner ByCategories
     :: map (category_line categories total) analysis.categories_list
     ++ [PrintTotal total;
         PrintMean (np_mean (map inject_Z numeric_scores));
         PrintMedian (np_median (map inject_Z numeric_scores))],
     Ok tt).
Proof.
  intros Ht. unfold analysis._print_statistics.
  rewrite (for_each_emit _ _ (star_line numeric_scores total)).
  2:{ intros star. by rewrite percentage_of_total, Counter_count. }
  rewrite (for_each_emit _ _ (category_line categories total)).
  2:{ intros category. by rewrite percentage_of_total, Counter_count. }
  reflexivity.
Qed.

(** The whole report of a batch whose labels are star tokens. *)
Lemma analyze_predictions_distribution_run predicts :
  predicts ≠ [] →
  Forall (fun p => Raw.label p ∈ star_tokens) predicts →
  ∃ stars categories,
    Forall2 (fun p s => getitem analysis.star_to_number (Raw.label p) = Ok s)
      predicts stars
    ∧ Forall2 (fun p c => label_mapper_spec (Raw.label p) = Ok c)
        predicts categories
    ∧ analysis.analyze_predictions_distribution predicts
      = (distribution_report stars categories (length predicts), Ok tt).
Proof.
  intros Hne Hall.
  destruct (comprehension_ok (getitem analysis.star_to_number)
              (map Raw.label predicts)) as (stars & Hs & Hstars).
  { apply Forall_fmap. eapply Forall_impl; [exact Hall|].
    intros p Hp. by apply star_number_defined. }
  destruct (comprehension_ok (getitem analysis.star_to_sentiment)
              (map Raw.label predicts)) as (categories & Hc & Hcats).
  { apply Forall_fmap. eapply Forall_impl; [exact Hall|].
    intros p Hp. simpl. rewrite analysis_mapping.
    destruct (label_mapper_defined _ Hp) as (c & _ & ->). by exists c. }
  exists stars, categories. split; [by apply Forall2_fmap_l in Hstars|].
  split.
  { apply Forall2_fmap_l in Hcats. eapply Forall2_impl; [exact Hcats|].
    intros p c. simpl. by rewrite analysis_mapping. }
  unfold analysis.analyze_predictions_distribution.
  rewrite Hs, Hc. unfold emit, lift. cbn [mbind io_bind].
  rewrite create_plots_run. cbn [mbind io_bind].
  rewrite print_statistics_run by by destruct predicts.
  reflexivity.
Qed.

Lemma report_star_rows stars categories total :
  star_rows (distribution_report stars categories total)
  = map (fun s => (s, occurrences s stars))
      (analysis.sorted_keys (analysis.Counter stars)).
Proof.
  unfold star_rows, distribution_report. rewrite !omap_app.
  rewrite (omap_map_some _ _ (fun s => (s, occurrences s stars))) by done.
  rewrite omap_map_none by done. by rewrite app_nil_r.
Qed.

Lemma report_category_rows stars categories total :
  category_rows (distribution_report stars categories total)
  = map (fun c => (c, occurrences c categories)) analysis.categories_list.
Proof.
  unfold category_rows, distribution_report. rewrite !omap_app.
  rewrite omap_map_none by done.
  rewrite (omap_map_some _ _ (fun c => (c, occurrences c categories))) by done.
  by rewrite app_nil_r.
Qed.

Lemma report_bars stars categories total :
  star_bars (distribution_report stars categories total)
  = [(analysis.sorted_keys (analysis.Counter stars),
      map (fun s => occurrences s stars)
        (analysis.sorted_keys (analysis.Counter stars)))]
  ∧ category_bars (distribution_report stars categories total)
    = [(analysis.categories_list,
        map (fun c => occurrences c categories) analysis.categories_list)].
Proof.
  unfold star_bars, category_bars, distribution_report.
  rewrite !omap_app, !omap_map_none by done. by split.
Qed.

(** ** The confidence report *)

(** C6. On an empty batch analyze_confidence_scores does not return: after
    the title, the empty histogram and the mean and median lines, both nan,
    [np.min] raises ValueError, so no minimum or maximum is printed and no
    finite statistic at all; the function returns exactly on the batches that
    are not empty. *)
Theorem confidence_of_empty_batch_raises :
  analysis.analyze_confidence_scores []
  = ([Print (PyStr.LF +:+ PyStr.times "=" 50);
      PrintBanner ConfidenceTitle;
      Print (PyStr.times "=" 50);
      Hist [];
      PrintConfidence "mean" NaN;
      PrintConfidence "median" NaN],
     Raise (ValueError (ZeroSizeReduction "minimum")))
  ∧ ∀ predicts,
      (∃ out, analysis.analyze_confidence_scores predicts = (out, Ok tt))
      ↔ predicts ≠ [].
Proof.
  split; [reflexivity|]. intros [|p predicts].
  - split; [intros [out Hout]; discriminate Hout|done].
  - split; [done|]. intros _. unfold analysis.analyze_confidence_scores.
    cbn [map np_min np_max]. unfold emit, lift. cbn [mbind io_bind].
    eexists. reflexivity.
Qed.

(** ** The specification's scenarios, evaluated *)

Example accuracy_of_one_match :
  main.accuracy_step ["positive"]
    [{| Readable.text := "t"; Readable.label := "positive";
        Readable.confidence := 1 |}]
  = ([Print "t : positive : positive"], Ok (PyFloat 1)).
Proof. reflexivity. Qed.

Example accuracy_of_one_mismatch :
  main.accuracy_step ["negative"]
    [{| Readable.text := "t"; Readable.label := "positive";
        Readable.confidence := 1 |}]
  = ([Print "t : positive : negative"], Ok (PyFloat 0)).
Proof. reflexivity. Qed.

Example accuracy_of_nothing : main.accuracy_step [] [] = ([], Ok (PyInt 0)).
Proof. reflexivity. Qed.

Example end_to_end_records :
  main.convert_to_readable sample_predictions sample_texts
  = Ok [{| Readable.text := "great phone"; Readable.label := "positive";
           Readable.confidence := (9200 # 10000)%Q |};
        {| Readable.text := "terrible phone"; Readable.label := "negative";
           Readable.confidence := (8800 # 10000)%Q |}].
Proof. by vm_compute. Qed.

Example end_to_end_accuracy :
  main.accuracy_step sample_gold_file sample_records
  = ([Print "great phone : positive : positive";
      Print "terrible phone : negative : negative"],
     Ok (PyFloat (2 # 2))).
Proof. by vm_compute. Qed.

Example end_to_end_distribution :
  let out := (analysis.analyze_predictions_distribution sample_predictions).1 in
  category_rows out = [("negative", 1%nat); ("neutral", 0%nat); ("positive", 1%nat)]
  ∧ star_rows out = [(1, 1%nat); (5, 1%nat)]
  ∧ PrintMean (Finite (6 # 2)) ∈ out
  ∧ PrintMedian (Finite (6 # 2)) ∈ out.
Proof.
  vm_compute. repeat split; repeat constructor.
Qed.

Example confidence_of_three_scores :
  analysis.analyze_confidence_scores
    [{| Raw.label := "5 stars"; Raw.score := (5 # 10)%Q |};
     {| Raw.label := "4 stars"; Raw.score := (7 # 10)%Q |};
     {| Raw.label := "5 stars"; Raw.score := (9 # 10)%Q |}]
  = ([Print (PyStr.LF +:+ PyStr.times "=" 50);
      PrintBanner ConfidenceTitle;
      Print (PyStr.times "=" 50);
      Hist [(5 # 10)%Q; (7 # 10)%Q; (9 # 10)%Q];
      PrintConfidence "mean" (Finite (2100 # 3000));
      PrintConfidence "median" (Finite (7 # 10));
      PrintConfidence "min" (Finite (5 # 10));
      PrintConfidence "max" (Finite (9 # 10))],
     Ok tt).
Proof. by vm_compute. Qed.

(** On an empty batch the distribution report stops at the first category
    line, dividing by the total of zero. *)
Example distribution_of_empty_batch :
  (analysis.analyze_predictions_distribution []).2 = Raise ZeroDivisionError.
Proof. by vm_compute. Qed.

(** ** More on strings: [strip] and [lower] commute and are idempotent *)

Lemma isspace_lower_char c : PyStr.isspace (PyStr.lower_char c) = PyStr.isspace c.
Proof. by destruct c as [[] [] [] [] [] [] [] []]. Qed.

Lemma lower_char_idem c : PyStr.lower_char (PyStr.lower_char c) = PyStr.lower_char c.
Proof. by destruct c as [[] [] [] [] [] [] [] []]. Qed.

Lemma lower_idem s : PyStr.lower (PyStr.lower s) = PyStr.lower s.
Proof. induction s as [|c s IH]; [done|]. simpl. by rewrite lower_char_idem, IH. Qed.

Lemma lstrip_lower s : PyStr.lstrip (PyStr.lower s) = PyStr.lower (PyStr.lstrip s).
Proof.
  induction s as [|c s IH]; [done|]. simpl. rewrite isspace_lower_char.
  by destruct (PyStr.isspace c).
Qed.

Lemma rstrip_lower s : PyStr.rstrip (PyStr.lower s) = PyStr.lower (PyStr.rstrip s).
Proof.
  induction s as [|c s IH]; [done|]. simpl. rewrite IH, isspace_lower_char.
  destruct (PyStr.rstrip s); simpl; [by destruct (PyStr.isspace c)|done].
Qed.

Lemma strip_lower s : PyStr.strip (PyStr.lower s) = PyStr.lower (PyStr.strip s).
Proof. unfold PyStr.strip. by rewrite lstrip_lower, rstrip_lower. Qed.

Lemma rstrip_idem s : PyStr.rstrip (PyStr.rstrip s) = PyStr.rstrip s.
Proof.
  induction s as [|c s IH]; [done|]. simpl.
  destruct (PyStr.rstrip s) as [|d t] eqn:Hr.
  - destruct (PyStr.isspace c) eqn:Hc; [done|]. simpl. by rewrite Hc.
  - simpl. simpl in IH. by rewrite IH.
Qed.

Lemma lstrip_fixed s :
  (∀ c, first_char s = Some c → PyStr.isspace c = false) → PyStr.lstrip s = s.
Proof.
  destruct s as [|c s]; [done|]. intros Hc. simpl. by rewrite (Hc c).
Qed.

Lemma strip_idem s : PyStr.strip (PyStr.strip s) = PyStr.strip s.
Proof.
  destruct (strip_trims s) as (_ & Hfirst & _).
  unfold PyStr.strip at 1. rewrite (lstrip_fixed _ Hfirst).
  unfold PyStr.strip. apply rstrip_idem.
Qed.

(** ** The two readers of sentiment_classification and count_metrics *)

Lemma data_lines_stripped file_lines s :
  s ∈ main.data_lines file_lines → s ≠ "" ∧ PyStr.strip s = s.
Proof.
  induction file_lines as [|line rest IH]; simpl.
  { by intros ?%elem_of_nil. }
  destruct (PyStr.truthy (PyStr.strip line)) eqn:Ht; [|done].
  intros [->|?]%elem_of_cons; [|auto].
  split; [by apply truthy_nonempty|apply strip_idem].
Qed.

Lemma data_lines_fixed lines :
  (∀ s, s ∈ lines → s ≠ "" ∧ PyStr.strip s = s) → main.data_lines lines = lines.
Proof.
  induction lines as [|s lines IH]; intros Hall; [done|]. simpl.
  destruct (Hall s) as [Hne Hs]; [apply list_elem_of_here|].
  rewrite Hs. apply truthy_nonempty in Hne as ->. f_equal.
  apply IH. intros s' Hs'. apply Hall. by apply list_elem_of_further.
Qed.

(** X1. The data file and the gold file are read by the same rule: the gold
    lines are the lowercased lines the data reader would keep, so both
    readers drop the same blank lines and number the rest alike; the lines
    kept are trimmed and not empty, and reading them again changes nothing. *)
Theorem readers_agree (file_lines : list string) :
  main.label_lines file_lines = map PyStr.lower (main.data_lines file_lines)
  ∧ length (main.label_lines file_lines) = length (main.data_lines file_lines)
  ∧ (∀ s, s ∈ main.data_lines file_lines → s ≠ "" ∧ PyStr.strip s = s)
  ∧ main.data_lines (main.data_lines file_lines) = main.data_lines file_lines.
Proof.
  assert (main.label_lines file_lines
          = map PyStr.lower (main.data_lines file_lines)) as He.
  { induction file_lines as [|line rest IH]; [done|]. simpl.
    destruct (PyStr.truthy (PyStr.strip line)); simpl; by rewrite IH. }
  split; [done|]. split; [by rewrite He, length_map|].
  split; [apply data_lines_stripped|].
  apply data_lines_fixed, data_lines_stripped.
Qed.

(** X2. The gold-label preprocessing is idempotent: lines that are already
    trimmed, lowercased and free of blank lines pass through unchanged, so
    count_metrics gives the same result on a file and on its cleaned lines. *)
Theorem label_lines_idempotent
    (file_lines : list string) (data : list CanonicalRecord) :
  main.label_lines (main.label_lines file_lines) = main.label_lines file_lines
  ∧ main.count_metrics (main.label_lines file_lines) data
    = main.count_metrics file_lines data.
Proof.
  assert (main.label_lines (main.label_lines file_lines)
          = main.label_lines file_lines) as He.
  { induction file_lines as [|line rest IH]; [done|]. simpl.
    destruct (PyStr.truthy (PyStr.strip line)) eqn:Ht; [|done]. simpl.
    rewrite strip_lower, strip_idem, lower_truthy, Ht, lower_idem.
    by rewrite IH. }
  split; [done|]. unfold main.count_metrics. by rewrite He.
Qed.

(** ** The [Labels] enumeration *)

(** X3. Looking a member up by its value gives the member back, a successful
    lookup returns the member with the value asked for, distinct members have
    distinct values, and the lookup is case-sensitive: it succeeds only on the
    three lowercase values. *)
Theorem Labels_round_trip :
  (∀ m, main.Labels_call (main.value m) = Ok m)
  ∧ (∀ v m, main.Labels_call v = Ok m → main.value m = v)
  ∧ (∀ m1 m2, main.value m1 = main.value m2 → m1 = m2)
  ∧ (∀ v, (∃ m, main.Labels_call v = Ok m) ↔ canonical v).
Proof.
  split; [apply Labels_call_value|]. split; [|split].
  - intros v m Hm.
    destruct (Labels_call_spec v) as [(_ & m' & Hv & Hc)|[_ Hc]];
      rewrite Hc in Hm; [|discriminate]. by injection Hm as <-.
  - by intros [] [] ?.
  - intros v. split.
    + intros [m Hm].
      destruct (Labels_call_spec v) as [[Hc _]|[_ Hc]]; [done|].
      rewrite Hc in Hm. discriminate.
    + intros Hc.
      destruct (Labels_call_spec v) as [(_ & m & _ & Hm)|[Hn _]]; [|done].
      by exists m.
Qed.

(** ** count_metrics: every way it can end *)

Lemma count_matches_le pairs : (count_matches pairs ≤ length pairs)%nat.
Proof. unfold count_matches. apply List.filter_length_le. Qed.

(** count_metrics on any input: rejected gold lines, or the loop. *)
Lemma count_metrics_cases labels_file data :
  let gold := main.label_lines labels_file in
  (Forall canonical gold
   ∧ main.count_metrics labels_file data
     = (map score_line (zip data gold),
        if decide (length gold ≤ length data)%nat
        then Ok (count_matches (zip data gold))
        else Raise IndexError))
  ∨ (∃ bad, bad ∈ gold ∧ ¬ canonical bad
       ∧ main.count_metrics labels_file data
         = ([], Raise (ValueError (NotAValidLabels bad)))).
Proof.
  intros gold. destruct (decide (Forall canonical gold)) as [Hv|Hn].
  - left. split; [done|].
    by rewrite (count_metrics_valid _ _ Hv), count_loop_run, drop_0.
  - right.
    destruct (check_labels_invalid _ Hn) as (good & bad & rest & Hg & _ & Hb & Hr).
    exists bad. split; [|split; [done|by apply count_metrics_raise]].
    fold gold. rewrite Hg. apply elem_of_app. right. apply list_elem_of_here.
Qed.

(** X4. When count_metrics raises, it is either the ValueError of [Labels] for a
    gold line that is not a label, with nothing printed, or IndexError with
    valid gold lines outnumbering the records and one line printed per
    record; the ValueError of its own [raise] statement never occurs. *)
Theorem count_metrics_failures
    (labels_file : list string) (data : list CanonicalRecord)
    (out : list output) (e : exn) :
  main.count_metrics labels_file data = (out, Raise e) →
  let gold := main.label_lines labels_file in
  e ≠ ValueError WrongLabelsFormat
  ∧ ((out = [] ∧ ∃ bad, e = ValueError (NotAValidLabels bad)
                        ∧ bad ∈ gold ∧ ¬ canonical bad)
     ∨ (e = IndexError ∧ Forall canonical gold
        ∧ (length data < length gold)%nat ∧ length out = length data)).
Proof.
  intros Hrun gold.
  destruct (count_metrics_cases labels_file data) as [[Hv Hc]|(bad & Hin & Hb & Hc)];
    fold gold in Hc; rewrite Hc in Hrun.
  - destruct (decide (length gold ≤ length data)%nat) as [|Hlt]; [discriminate|].
    injection Hrun as <- <-. split; [discriminate|]. right.
    split; [done|]. split; [done|]. split; [lia|].
    rewrite length_map, length_zip. lia.
  - injection Hrun as <- <-. split; [discriminate|]. left.
    split; [done|]. by exists bad.
Qed.

Lemma count_metrics_failures_witness :
  let gold := main.label_lines long_gold_file in
  IndexError ≠ ValueError WrongLabelsFormat
  ∧ ((map score_line (zip sample_records gold) = []
      ∧ ∃ bad, IndexError = ValueError (NotAValidLabels bad)
               ∧ bad ∈ gold ∧ ¬ canonical bad)
     ∨ (IndexError = IndexError ∧ Forall canonical gold
        ∧ (length sample_records < length gold)%nat
        ∧ length (map score_line (zip sample_records gold))
          = length sample_records)).
Proof.
  apply (count_metrics_failures long_gold_file sample_records
           (map score_line (zip sample_records (main.label_lines long_gold_file)))
           IndexError).
  reflexivity.
Defined.

(** X5. When count_metrics returns, every gold line is a label, there are at
    most as many gold lines as records, one line was printed per gold line,
    and the count returned is the number of positions at which the record's
    label equals the gold line, at most the number of gold lines. *)
Theorem count_metrics_returns
    (labels_file : list string) (data : list CanonicalRecord)
    (out : list output) (n : nat) :
  main.count_metrics labels_file data = (out, Ok n) →
  let gold := main.label_lines labels_file in
  Forall canonical gold
  ∧ (length gold ≤ length data)%nat
  ∧ out = map score_line (zip data gold)
  ∧ length out = length gold
  ∧ n = matches data gold
  ∧ (n ≤ length gold)%nat.
Proof.
  intros Hrun gold.
  destruct (count_metrics_cases labels_file data) as [[Hv Hc]|(bad & _ & _ & Hc)];
    fold gold in Hc; rewrite Hc in Hrun; [|discriminate].
  destruct (decide (length gold ≤ length data)%nat) as [Hle|]; [|discriminate].
  injection Hrun as <- <-. split; [done|]. split; [done|]. split; [done|].
  split; [rewrite length_map, length_zip; lia|].
  split; [apply count_matches_indices|].
  etrans; [apply count_matches_le|]. rewrite length_zip. lia.
Qed.

Lemma count_metrics_returns_witness :
  let gold := main.label_lines short_gold_file in
  Forall canonical gold
  ∧ (length gold ≤ length sample_records)%nat
  ∧ [Print "great phone : positive : positive"]
    = map score_line (zip sample_records gold)
  ∧ length [Print "great phone : positive : positive"] = length gold
  ∧ 1%nat = matches sample_records gold
  ∧ (1 ≤ length gold)%nat.
Proof.
  apply (count_metrics_returns short_gold_file sample_records
           [Print "great phone : positive : positive"] 1%nat).
  reflexivity.
Defined.

(** ** The accuracy is a fraction *)

Lemma accuracy_step_cases labels_file records :
  main.accuracy_step labels_file records
  = match main.count_metrics labels_file records with
    | (out, Ok n) =>
        (out, Ok (match records with
                  | [] => PyInt 0
                  | _ => PyFloat (inject_Z (Z.of_nat n)
                                  / inject_Z (Z.of_nat (length records)))%Q
                  end))
    | (out, Raise e) => (out, Raise e)
    end.
Proof.
  unfold main.accuracy_step.
  destruct (main.count_metrics labels_file records) as [out [n|e]]; [|done].
  cbn [mbind io_bind mret io_ret]. by rewrite app_nil_r.
Qed.

Lemma fraction_in_unit (n d : nat) :
  (n ≤ d)%nat → (0 < d)%nat →
  (0 <= inject_Z (Z.of_nat n) / inject_Z (Z.of_nat d)
   ∧ inject_Z (Z.of_nat n) / inject_Z (Z.of_nat d) <= 1)%Q.
Proof.
  intros Hn Hd.
  assert (0 < inject_Z (Z.of_nat d))%Q as Hpos.
  { change 0%Q with (inject_Z 0). rewrite <- Zlt_Qlt. lia. }
  split.
  - apply Qle_shift_div_l; [done|]. rewrite Qmult_0_l.
    change 0%Q with (inject_Z 0). rewrite <- Zle_Qle. lia.
  - apply Qle_shift_div_r; [done|]. rewrite Qmult_1_l.
    rewrite <- Zle_Qle. lia.
Qed.

(** X6. Whenever the scoring step returns a score, the score lies between 0 and
    1, whatever the records and the gold file are. *)
Theorem accuracy_in_unit_interval
    (labels_file : list string) (records : list CanonicalRecord)
    (out : list output) (score : pynum) :
  main.accuracy_step labels_file records = (out, Ok score) →
  (0 <= pynum_value score ∧ pynum_value score <= 1)%Q.
Proof.
  rewrite accuracy_step_cases.
  destruct (main.count_metrics labels_file records) as [out' [n|e]] eqn:Hc;
    [|discriminate].
  intros [= <- <-].
  destruct (count_metrics_cases labels_file records)
    as [[_ Hrun]|(bad & _ & _ & Hrun)]; rewrite Hrun in Hc; [|discriminate].
  destruct (decide (length (main.label_lines labels_file) ≤ length records)%nat)
    as [Hle|]; [|discriminate].
  injection Hc as _ <-.
  destruct records as [|r records]; [done|].
  apply fraction_in_unit; [|simpl; lia].
  etrans; [apply count_matches_le|]. rewrite length_zip. lia.
Qed.

Lemma accuracy_in_unit_interval_witness :
  (0 <= pynum_value (PyFloat (1 # 2)) ∧ pynum_value (PyFloat (1 # 2)) <= 1)%Q.
Proof.
  apply (accuracy_in_unit_interval short_gold_file sample_records
           [Print "great phone : positive : positive"] (PyFloat (1 # 2))).
  reflexivity.
Defined.

(** ** convert_to_readable beyond equal lengths *)

Lemma convert_loop_unknown predicts :
  ∀ texts i p acc,
    predicts !! i = Some p → (i < length texts)%nat →
    Raw.label p ∉ star_tokens →
    (∀ j q, (j < i)%nat → predicts !! j = Some q → Raw.label q ∈ star_tokens) →
    main.convert_loop (zip texts predicts) acc = Raise (KeyError (Raw.label p)).
Proof.
  induction predicts as [|q predicts IH]; intros texts i p acc Hp Hi Hbad Hgood.
  { by rewrite lookup_nil in Hp. }
  destruct texts as [|t texts]; [simpl in Hi; lia|].
  cbn [zip zip_with main.convert_loop]. rewrite main_mapping.
  destruct i as [|i].
  - injection Hp as ->. by rewrite (label_mapper_undefined _ Hbad).
  - destruct (label_mapper_defined (Raw.label q)) as (c & _ & ->).
    { apply (Hgood 0%nat); [lia|done]. }
    cbn [mbind result_bind]. apply (IH texts i); [done|simpl in Hi; lia|done|].
    intros j q' Hj Hq'. apply (Hgood (S j)); [lia|done].
Qed.

(** X7. The first prediction, among those paired with a text, whose label is not
    a star token makes convert_to_readable raise KeyError for that label:
    the records built before it are lost and no default label is used. *)
Theorem convert_to_readable_unknown_label
    (predicts : list RawPrediction) (texts : list string)
    (i : nat) (p : RawPrediction) :
  predicts !! i = Some p → (i < length texts)%nat →
  Raw.label p ∉ star_tokens →
  (∀ j q, (j < i)%nat → predicts !! j = Some q → Raw.label q ∈ star_tokens) →
  main.convert_to_readable predicts texts = Raise (KeyError (Raw.label p)).
Proof. intros. by apply (convert_loop_unknown predicts texts i). Qed.

(** A star prediction followed by a stray one, for the two sample texts. *)
Lemma convert_to_readable_unknown_label_witness :
  main.convert_to_readable
    [{| Raw.label := "5 stars"; Raw.score := (92 # 100)%Q |};
     {| Raw.label := "LABEL_0"; Raw.score := (5 # 10)%Q |}]
    sample_texts
  = Raise (KeyError "LABEL_0").
Proof.
  apply (convert_to_readable_unknown_label _ sample_texts 1%nat
           {| Raw.label := "LABEL_0"; Raw.score := (5 # 10)%Q |}).
  - reflexivity.
  - simpl. lia.
  - by_decide.
  - intros [|j] q Hj Hq; [|lia]. simpl in Hq. injection Hq as <-. by_decide.
Defined.

Lemma convert_to_readable_run predicts texts :
  Forall (fun tp => Raw.label tp.2 ∈ star_tokens) (zip texts predicts) →
  ∃ rs, main.convert_to_readable predicts texts = Ok rs
        ∧ Forall2 (fun tp r => readable_of tp.1 tp.2 r) (zip texts predicts) rs.
Proof. intros Hall. by apply (convert_loop_run _ [] Hall). Qed.

(** X8. With texts and predictions of any lengths, convert_to_readable pairs
    them up to the shorter length and silently drops the surplus: when the
    paired predictions carry star tokens it returns that many records, each
    with one of the three label values, the i-th from the i-th text and
    prediction. *)
Theorem convert_to_readable_truncates
    (predicts : list RawPrediction) (texts : list string) :
  Forall (fun p => Raw.label p ∈ star_tokens)
    (take (length texts) predicts) →
  ∃ rs, main.convert_to_readable predicts texts = Ok rs
    ∧ length rs = (length texts `min` length predicts)%nat
    ∧ Forall (fun r => canonical (Readable.label r)) rs
    ∧ (∀ i r, rs !! i = Some r →
         ∃ t p, texts !! i = Some t ∧ predicts !! i = Some p
                ∧ readable_of t p r).
Proof.
  intros Hall.
  destruct (convert_to_readable_run predicts texts) as (rs & Hrun & Hrs).
  { apply Forall_forall. intros [t p] Hin. simpl.
    apply list_elem_of_lookup in Hin as [i Hi].
    apply lookup_zip_with_Some in Hi as (t' & p' & [= <- <-] & Ht & Hp).
    apply (proj1 (Forall_forall _ _) Hall).
    apply list_elem_of_lookup. exists i. rewrite lookup_take_lt; [done|].
    by apply lookup_lt_Some in Ht. }
  exists rs. split; [done|].
  pose proof (Forall2_length _ _ _ Hrs) as Hl. rewrite length_zip in Hl.
  split; [lia|].
  assert (∀ i r, rs !! i = Some r →
            ∃ t p, texts !! i = Some t ∧ predicts !! i = Some p
                   ∧ readable_of t p r) as Hpoint.
  { intros i r Hr.
    destruct (Forall2_lookup_r _ _ _ _ _ Hrs Hr) as ([t p] & Hz & Hof).
    apply lookup_zip_with_Some in Hz as (t' & p' & [= <- <-] & Ht & Hp).
    by exists t, p. }
  split; [|done].
  apply Forall_forall. intros r Hr.
  apply list_elem_of_lookup in Hr as [i Hi].
  destruct (Hpoint i r Hi) as (t & p & _ & Hp & _ & Hlab & _).
  assert (Raw.label p ∈ star_tokens) as Hstar.
  { destruct (decide (Raw.label p ∈ star_tokens)) as [|Hn]; [done|].
    rewrite (label_mapper_undefined _ Hn) in Hlab. discriminate. }
  destruct (label_mapper_defined _ Hstar) as (c & Hc & Hmap).
  rewrite Hmap in Hlab. by injection Hlab as <-.
Qed.

(** Two predictions for the single text "great phone". *)
Lemma convert_to_readable_truncates_witness :
  ∃ rs, main.convert_to_readable sample_predictions ["great phone"] = Ok rs
    ∧ length rs = (length ["great phone"] `min` length sample_predictions)%nat
    ∧ Forall (fun r => canonical (Readable.label r)) rs
    ∧ (∀ i r, rs !! i = Some r →
         ∃ t p, ["great phone"] !! i = Some t ∧ sample_predictions !! i = Some p
                ∧ readable_of t p r).
Proof.
  apply (convert_to_readable_truncates sample_predictions ["great phone"]).
  by_decide.
Defined.

(** ** _print_statistics and its total *)

Lemma for_each_raise {A} (l : list A) (body : A → io unit) e :
  l ≠ [] → (∀ x, body x = ([], Raise e)) → for_each l body = ([], Raise e).
Proof. intros Hl Hb. destruct l as [|x l]; [done|]. simpl. by rewrite Hb. Qed.

(** X9. _print_statistics returns exactly when [total] is not zero; with a total
    of zero it raises ZeroDivisionError at the first percentage, before any
    star or category line is printed. *)
Theorem print_statistics_needs_total
    (numeric_scores : list Z) (categories : list string) (total : nat) :
  ((∃ out, analysis._print_statistics numeric_scores categories total
           = (out, Ok tt)) ↔ total ≠ 0%nat)
  ∧ ∃ out, analysis._print_statistics numeric_scores categories 0
           = (out, Raise ZeroDivisionError)
           ∧ star_rows out = [] ∧ category_rows out = [].
Proof.
  assert (∃ out, analysis._print_statistics numeric_scores categories 0
                 = (out, Raise ZeroDivisionError)
                 ∧ star_rows out = [] ∧ category_rows out = []) as Hzero.
  { unfold analysis._print_statistics.
    destruct (analysis.sorted_keys (analysis.Counter numeric_scores))
      as [|star keys]; by eexists. }
  split; [|exact Hzero]. split.
  - intros [out Hout] ->. destruct Hzero as (out' & Hz & _).
    rewrite Hz in Hout. discriminate.
  - intros Ht. eexists. by apply print_statistics_run.
Qed.

(** ** The distribution, counted on the labels of the batch *)

Lemma star_number_cases tok n :
  getitem analysis.star_to_number tok = Ok n →
  (tok = "1 star" ∧ n = 1) ∨ (tok = "2 stars" ∧ n = 2)
  ∨ (tok = "3 stars" ∧ n = 3) ∨ (tok = "4 stars" ∧ n = 4)
  ∨ (tok = "5 stars" ∧ n = 5).
Proof.
  unfold analysis.star_to_number. rewrite getitem_star_dict.
  repeat (case_decide; [intros [= <-]; tauto|]). discriminate.
Qed.

Lemma label_mapper_cases raw c :
  label_mapper_spec raw = Ok c →
  (raw = "1 star" ∧ c = "negative") ∨ (raw = "2 stars" ∧ c = "negative")
  ∨ (raw = "3 stars" ∧ c = "neutral") ∨ (raw = "4 stars" ∧ c = "positive")
  ∨ (raw = "5 stars" ∧ c = "positive").
Proof.
  unfold label_mapper_spec.
  repeat (case_decide; [intros [= <-]; tauto|]). discriminate.
Qed.

Lemma occurrences_cons `{EqDecision A} (x y : A) l :
  occurrences x (y :: l)
  = ((if decide (x = y) then 1 else 0) + occurrences x l)%nat.
Proof. unfold occurrences. rewrite filter_cons. by case_decide. Qed.

(** A star value occurs as often as its token among the labels. *)
Lemma stars_count predicts stars tok n :
  Forall2 (fun p s => getitem analysis.star_to_number (Raw.label p) = Ok s)
    predicts stars →
  getitem analysis.star_to_number tok = Ok n →
  occurrences n stars = occurrences tok (map Raw.label predicts).
Proof.
  intros Hall Hn. induction Hall as [|p s predicts stars Hp _ IH]; [done|].
  cbn [map]. rewrite !occurrences_cons, IH. f_equal.
  apply star_number_cases in Hp, Hn.
  destruct Hp as [[-> ->]|[[-> ->]|[[-> ->]|[[-> ->]|[-> ->]]]]];
    destruct Hn as [[-> ->]|[[-> ->]|[[-> ->]|[[-> ->]|[-> ->]]]]]; done.
Qed.

(** A sentiment occurs as often as its tokens among the labels. *)
Lemma categories_count predicts categories :
  Forall2 (fun p c => label_mapper_spec (Raw.label p) = Ok c)
    predicts categories →
  let labels := map Raw.label predicts in
  occurrences "negative" categories
  = (occurrences "1 star" labels + occurrences "2 stars" labels)%nat
  ∧ occurrences "neutral" categories = occurrences "3 stars" labels
  ∧ occurrences "positive" categories
    = (occurrences "4 stars" labels + occurrences "5 stars" labels)%nat.
Proof.
  intros Hall. induction Hall as [|p c predicts categories Hp _ IH]; [done|].
  destruct IH as (IH1 & IH2 & IH3). cbn [map]. cbv zeta.
  rewrite !occurrences_cons, IH1, IH2, IH3.
  apply label_mapper_cases in Hp.
  destruct Hp as [[-> ->]|[[-> ->]|[[-> ->]|[[-> ->]|[-> ->]]]]];
    repeat split; simpl; lia.
Qed.

Lemma tokens_count (labels : list string) :
  Forall (fun l => l ∈ star_tokens) labels →
  (occurrences "1 star" labels + occurrences "2 stars" labels
   + occurrences "3 stars" labels + occurrences "4 stars" labels
   + occurrences "5 stars" labels)%nat = length labels.
Proof.
  induction 1 as [|l labels Hl _ IH]; [done|].
  rewrite !occurrences_cons. apply star_token_cases in Hl.
  destruct Hl as [->|[->|[->|[->| ->]]]]; simpl; lia.
Qed.

Lemma star_values stars predicts s :
  Forall2 (fun p s => getitem analysis.star_to_number (Raw.label p) = Ok s)
    predicts stars →
  s ∈ stars → s ∈ [1; 2; 3; 4; 5].
Proof.
  intros Hall Hs. apply list_elem_of_lookup in Hs as [i Hi].
  destruct (Forall2_lookup_r _ _ _ _ _ Hall Hi) as (p & _ & Hp).
  apply star_number_cases in Hp. rewrite !elem_of_cons. tauto.
Qed.

Lemma StronglySorted_keep {A} (R : relation A) (P : A → Prop)
    `{!∀ x, Decision (P x)} (l : list A) :
  StronglySorted R l → StronglySorted R (filter P l).
Proof.
  induction 1 as [|x l Hl IH Hx]; [constructor|].
  rewrite filter_cons. case_decide; [|done].
  constructor; [done|]. apply Forall_forall. intros y [_ Hy]%list_elem_of_filter.
  by apply (proj1 (Forall_forall _ _) Hx).
Qed.

(** The sorted keys of the star counter are the values 1..5 that occur. *)
Lemma sorted_keys_filter stars predicts :
  Forall2 (fun p s => getitem analysis.star_to_number (Raw.label p) = Ok s)
    predicts stars →
  analysis.sorted_keys (analysis.Counter stars)
  = filter (fun s => s ∈ stars) [1; 2; 3; 4; 5].
Proof.
  intros Hall. apply (Sorted_unique Z.le).
  - apply sorted_keys_Sorted.
  - apply StronglySorted_Sorted, StronglySorted_keep.
    repeat constructor; lia.
  - apply NoDup_Permutation.
    + apply sorted_keys_NoDup.
    + apply NoDup_filter. by_decide.
    + intros s. rewrite sorted_keys_elem, list_elem_of_filter.
      split; [|tauto]. intros Hs. split; [done|].
      by apply (star_values stars predicts).
Qed.

Lemma rows_of_occurring (stars l : list Z) :
  map (fun s => (s, occurrences s stars)) (filter (fun s => s ∈ stars) l)
  = filter (fun r => 0 < r.2)%nat (map (fun s => (s, occurrences s stars)) l).
Proof.
  induction l as [|s l IH]; [done|].
  cbn [map]. rewrite !filter_cons. cbn [snd].
  destruct (decide (s ∈ stars)) as [Hs|Hs]; rewrite occurrences_pos in Hs.
  - rewrite decide_True by done. cbn [map]. by rewrite IH.
  - by rewrite decide_False by done.
Qed.

Lemma sum_positive_rows (rows : list (Z * nat)) :
  sum_list (filter (fun r => 0 < r.2)%nat rows).*2 = sum_list rows.*2.
Proof.
  induction rows as [|[s n] rows IH]; [done|].
  rewrite filter_cons. case_decide as Hn; csimpl; rewrite IH; [done|].
  simpl in Hn. lia.
Qed.

(** X10. For a batch that is not empty and whose labels are star tokens, the
    report counts the labels themselves: the category lines carry the number
    of "1 star" and "2 stars" labels, of "3 stars" labels, and of "4 stars"
    and "5 stars" labels; the star lines are those of the values 1..5 whose
    token occurs, with the number of its occurrences; and both the star
    counts and the category counts add up to the size of the batch, which is
    the total printed. *)
Theorem distribution_counts_labels (predicts : list RawPrediction) :
  predicts ≠ [] →
  Forall (fun p => Raw.label p ∈ star_tokens) predicts →
  let labels := map Raw.label predicts in
  ∃ out,
    analysis.analyze_predictions_distribution predicts = (out, Ok tt)
    ∧ category_rows out
      = [("negative",
          (occurrences "1 star" labels + occurrences "2 stars" labels)%nat);
         ("neutral", occurrences "3 stars" labels);
         ("positive",
          (occurrences "4 stars" labels + occurrences "5 stars" labels)%nat)]
    ∧ star_rows out
      = filter (fun r => 0 < r.2)%nat
          [(1, occurrences "1 star" labels);
           (2, occurrences "2 stars" labels);
           (3, occurrences "3 stars" labels);
           (4, occurrences "4 stars" labels);
           (5, occurrences "5 stars" labels)]
    ∧ sum_list (star_rows out).*2 = length predicts
    ∧ sum_list (category_rows out).*2 = length predicts
    ∧ PrintTotal (length predicts) ∈ out.
Proof.
  intros Hne Hall labels.
  destruct (analyze_predictions_distribution_run predicts Hne Hall)
    as (stars & categories & Hstars & Hcats & Hrun).
  exists (distribution_report stars categories (length predicts)).
  split; [done|].
  destruct (categories_count predicts categories Hcats) as (Hc1 & Hc2 & Hc3).
  fold labels in Hc1, Hc2, Hc3.
  assert (Forall (fun l => l ∈ star_tokens) (map Raw.label predicts)) as Hlab
    by (apply Forall_fmap; exact Hall).
  pose proof (tokens_count _ Hlab) as Htok.
  rewrite length_map in Htok. fold labels in Htok.
  assert (category_rows (distribution_report stars categories (length predicts))
          = [("negative",
              (occurrences "1 star" labels + occurrences "2 stars" labels)%nat);
             ("neutral", occurrences "3 stars" labels);
             ("positive",
              (occurrences "4 stars" labels + occurrences "5 stars" labels)%nat)])
    as Hcr.
  { rewrite report_category_rows. cbn [map analysis.categories_list].
    by rewrite Hc1, Hc2, Hc3. }
  assert (star_rows (distribution_report stars categories (length predicts))
          = filter (fun r => 0 < r.2)%nat
              [(1, occurrences "1 star" labels);
               (2, occurrences "2 stars" labels);
               (3, occurrences "3 stars" labels);
               (4, occurrences "4 stars" labels);
               (5, occurrences "5 stars" labels)]) as Hsr.
  { rewrite report_star_rows, (sorted_keys_filter stars predicts Hstars).
    rewrite rows_of_occurring. cbn [map]. unfold labels.
    rewrite (stars_count predicts stars "1 star" 1 Hstars eq_refl).
    rewrite (stars_count predicts stars "2 stars" 2 Hstars eq_refl).
    rewrite (stars_count predicts stars "3 stars" 3 Hstars eq_refl).
    rewrite (stars_count predicts stars "4 stars" 4 Hstars eq_refl).
    by rewrite (stars_count predicts stars "5 stars" 5 Hstars eq_refl). }
  split; [done|]. split; [done|].
  split; [rewrite Hsr, sum_positive_rows; simpl; lia|].
  split; [rewrite Hcr; simpl; lia|].
  unfold distribution_report. rewrite !elem_of_app, !elem_of_cons. tauto.
Qed.

(** The two sample predictions: one "5 stars", one "1 star". *)
Lemma distribution_counts_labels_witness :
  let labels := map Raw.label sample_predictions in
  ∃ out,
    analysis.analyze_predictions_distribution sample_predictions = (out, Ok tt)
    ∧ category_rows out
      = [("negative",
          (occurrences "1 star" labels + occurrences "2 stars" labels)%nat);
         ("neutral", occurrences "3 stars" labels);
         ("positive",
          (occurrences "4 stars" labels + occurrences "5 stars" labels)%nat)]
    ∧ star_rows out
      = filter (fun r => 0 < r.2)%nat
          [(1, occurrences "1 star" labels);
           (2, occurrences "2 stars" labels);
           (3, occurrences "3 stars" labels);
           (4, occurrences "4 stars" labels);
           (5, occurrences "5 stars" labels)]
    ∧ sum_list (star_rows out).*2 = length sample_predictions
    ∧ sum_list (category_rows out).*2 = length sample_predictions
    ∧ PrintTotal (length sample_predictions) ∈ out.
Proof.
  apply (distribution_counts_labels sample_predictions).
  - discriminate.
  - by_decide.
Defined.

(** ** The confidence report of a batch that is not empty *)

Lemma Qmin_either x y : Qmin x y = x ∨ Qmin x y = y.
Proof.
  unfold Qmin, GenericMinMax.gmin. destruct (x ?= y)%Q; auto.
Qed.

Lemma Qmax_either x y : Qmax x y = x ∨ Qmax x y = y.
Proof.
  unfold Qmax, GenericMinMax.gmax. destruct (x ?= y)%Q; auto.
Qed.

Lemma foldl_Qmin_least rest : ∀ x,
  foldl Qmin x rest ∈ x :: rest
  ∧ ∀ y, y ∈ x :: rest → (foldl Qmin x rest <= y)%Q.
Proof.
  induction rest as [|z rest IH]; intros x.
  { split; [apply list_elem_of_here|].
    intros y [->|[]%elem_of_nil]%elem_of_cons. apply Qle_refl. }
  cbn [foldl]. destruct (IH (Qmin x z)) as [Hin Hle]. split.
  - apply elem_of_cons in Hin as [Hm|Hin].
    + rewrite Hm. destruct (Qmin_either x z) as [-> | ->].
      * apply list_elem_of_here.
      * apply list_elem_of_further, list_elem_of_here.
    + by do 2 apply list_elem_of_further.
  - assert (foldl Qmin (Qmin x z) rest <= Qmin x z)%Q as Hm
      by apply Hle, list_elem_of_here.
    intros y [->|[->|Hy]%elem_of_cons]%elem_of_cons.
    + eapply Qle_trans; [exact Hm|apply Q.le_min_l].
    + eapply Qle_trans; [exact Hm|apply Q.le_min_r].
    + by apply Hle, list_elem_of_further.
Qed.

Lemma foldl_Qmax_greatest rest : ∀ x,
  foldl Qmax x rest ∈ x :: rest
  ∧ ∀ y, y ∈ x :: rest → (y <= foldl Qmax x rest)%Q.
Proof.
  induction rest as [|z rest IH]; intros x.
  { split; [apply list_elem_of_here|].
    intros y [->|[]%elem_of_nil]%elem_of_cons. apply Qle_refl. }
  cbn [foldl]. destruct (IH (Qmax x z)) as [Hin Hle]. split.
  - apply elem_of_cons in Hin as [Hm|Hin].
    + rewrite Hm. destruct (Qmax_either x z) as [-> | ->].
      * apply list_elem_of_here.
      * apply list_elem_of_further, list_elem_of_here.
    + by do 2 apply list_elem_of_further.
  - assert (Qmax x z <= foldl Qmax (Qmax x z) rest)%Q as Hm
      by apply Hle, list_elem_of_here.
    intros y [->|[->|Hy]%elem_of_cons]%elem_of_cons.
    + eapply Qle_trans; [apply Q.le_max_l|exact Hm].
    + eapply Qle_trans; [apply Q.le_max_r|exact Hm].
    + by apply Hle, list_elem_of_further.
Qed.

Lemma median_between lo hi xs m :
  (∀ x, x ∈ xs → (lo <= x ∧ x <= hi)%Q) →
  np_median xs = Finite m → (lo <= m ∧ m <= hi)%Q.
Proof.
  intros Hall. unfold np_median. destruct xs as [|x xs]; [done|].
  set (s := merge_sort Qle (x :: xs)).
  assert (length s = S (length xs)) as Hlen.
  { unfold s. by rewrite merge_sort_Permutation. }
  assert (∀ k, (k < length s)%nat → (lo <= nth k s 0 ∧ nth k s 0 <= hi)%Q)
    as Hnth.
  { intros k Hk. apply Hall. rewrite <- (merge_sort_Permutation Qle (x :: xs)).
    fold s. apply list_elem_of_In, nth_In. exact Hk. }
  assert (length s `div` 2 < length s)%nat as Hmid
    by (apply Nat.div_lt; lia).
  destruct (Hnth (length s `div` 2 - 1)%nat) as [H1 H2]; [lia|].
  destruct (Hnth (length s `div` 2)%nat) as [H3 H4]; [done|].
  set (a := nth (length s `div` 2 - 1) s 0%Q) in *.
  set (b := nth (length s `div` 2) s 0%Q) in *.
  destruct (Nat.even (length s)); intros [= <-]; [|done].
  unfold Qdiv. change (/ 2)%Q with (1 # 2)%Q. split; lra.
Qed.

(** X11. On a batch that is not empty analyze_confidence_scores returns after
    the title, the histogram of the scores and four lines, for the mean, the
    median, the minimum and the maximum: the minimum and the maximum are
    scores of the batch and bound every score, and the median lies between
    them. *)
Theorem confidence_statistics_bounded (predicts : list RawPrediction) :
  predicts ≠ [] →
  let scores := map Raw.score predicts in
  ∃ mean median lo hi,
    analysis.analyze_confidence_scores predicts
    = ([Print (PyStr.LF +:+ PyStr.times "=" 50);
        PrintBanner ConfidenceTitle;
        Print (PyStr.times "=" 50);
        Hist scores;
        PrintConfidence "mean" (Finite mean);
        PrintConfidence "median" (Finite median);
        PrintConfidence "min" (Finite lo);
        PrintConfidence "max" (Finite hi)],
       Ok tt)
    ∧ lo ∈ scores ∧ hi ∈ scores
    ∧ (∀ x, x ∈ scores → (lo <= x ∧ x <= hi)%Q)
    ∧ (lo <= median ∧ median <= hi)%Q.
Proof.
  intros Hne scores. destruct predicts as [|p predicts]; [done|].
  destruct (foldl_Qmin_least (map Raw.score predicts) (Raw.score p))
    as [Hlo_in Hlo].
  destruct (foldl_Qmax_greatest (map Raw.score predicts) (Raw.score p))
    as [Hhi_in Hhi].
  assert (∀ x, x ∈ scores →
            (foldl Qmin (Raw.score p) (map Raw.score predicts) <= x
             ∧ x <= foldl Qmax (Raw.score p) (map Raw.score predicts))%Q)
    as Hall by (intros x Hx; split; [by apply Hlo|by apply Hhi]).
  destruct (np_mean scores) as [mean|] eqn:Hmean; [|done].
  assert (∃ median, np_median scores = Finite median) as [median Hmedian].
  { unfold np_median, scores. cbn [map].
    destruct (Nat.even _); by eexists. }
  exists mean, median, (foldl Qmin (Raw.score p) (map Raw.score predicts)),
    (foldl Qmax (Raw.score p) (map Raw.score predicts)).
  split.
  { unfold analysis.analyze_confidence_scores. fold scores.
    rewrite Hmean, Hmedian. reflexivity. }
  split; [done|]. split; [done|]. split; [done|].
  by apply (median_between _ _ scores).
Qed.

(** The two sample predictions, with scores 0.92 and 0.88. *)
Lemma confidence_statistics_bounded_witness :
  let scores := map Raw.score sample_predictions in
  ∃ mean median lo hi,
    analysis.analyze_confidence_scores sample_predictions
    = ([Print (PyStr.LF +:+ PyStr.times "=" 50);
        PrintBanner ConfidenceTitle;
        Print (PyStr.times "=" 50);
        Hist scores;
        PrintConfidence "mean" (Finite mean);
        PrintConfidence "median" (Finite median);
        PrintConfidence "min" (Finite lo);
        PrintConfidence "max" (Finite hi)],
       Ok tt)
    ∧ lo ∈ scores ∧ hi ∈ scores
    ∧ (∀ x, x ∈ scores → (lo <= x ∧ x <= hi)%Q)
    ∧ (lo <= median ∧ median <= hi)%Q.
Proof.
  apply (confidence_statistics_bounded sample_predictions). discriminate.
Defined.

(** ** sentiment_classification, end to end *)

(** The run of the pipeline once both files exist and the classifier keeps
    its contract on the phrases of the data file. *)
Lemma pipeline_run (classifier : list string → list RawPrediction)
    (data labels : list string) :
  let lines := main.data_lines data in
  let predicts := classifier lines in
  lines ≠ [] → length predicts = length lines →
  Forall (fun p => Raw.label p ∈ star_tokens) predicts →
  ∃ records stars categories,
    main.convert_to_readable predicts lines = Ok records
    ∧ length records = length lines
    ∧ main.sentiment_classification classifier (Some data) (Some labels)
      = match main.accuracy_step labels records with
        | (scored, Ok accuracy) =>
            (PrintBanner Processing
             :: distribution_report stars categories (length predicts)
             ++ [PrintBanner ClassificationResults;
                 Print (PyStr.times "-" 50);
                 Print "<phrase> : <predict> : <label>"]
             ++ scored
             ++ [Print (PyStr.times "-" 50); PrintAccuracy accuracy],
             Ok tt)
        | (scored, Raise e) =>
            (PrintBanner Processing
             :: distribution_report stars categories (length predicts)
             ++ [PrintBanner ClassificationResults;
                 Print (PyStr.times "-" 50);
                 Print "<phrase> : <predict> : <label>"]
             ++ scored,
             Raise e)
        end.
Proof.
  intros lines predicts Hne Hlen Hall.
  destruct (convert_to_readable_run predicts lines) as (records & Hconv & Hrs).
  { apply Forall_forall. intros [t p] Hin. simpl.
    apply (proj1 (Forall_forall _ _) Hall). by apply elem_of_zip_r in Hin. }
  destruct (analyze_predictions_distribution_run predicts)
    as (stars & categories & _ & _ & Hrun); [|done|].
  { intros Hp. rewrite Hp in Hlen. by destruct lines. }
  exists records, stars, categories. split; [done|].
  pose proof (Forall2_length _ _ _ Hrs) as Hl. rewrite length_zip in Hl.
  split; [lia|].
  unfold main.sentiment_classification. fold lines. fold predicts.
  rewrite Hconv. unfold emit, lift. cbn [mbind io_bind].
  rewrite Hrun. cbn [mbind io_bind].
  destruct (main.accuracy_step labels records) as [scored [accuracy|e]];
    cbn [mbind io_bind app]; by rewrite <- ?app_assoc.
Qed.

(** X12. When both files exist, the data file has a phrase, the classifier
    answers one star token per phrase and the gold file holds one valid label
    per phrase, sentiment_classification returns, and the last thing it
    prints is the accuracy: the number of phrases whose mapped sentiment
    equals the gold label of the same position, divided by the number of
    phrases. *)
Theorem pipeline_reports_accuracy
    (classifier : list string → list RawPrediction)
    (data labels : list string) :
  let lines := main.data_lines data in
  let predicts := classifier lines in
  let gold := main.label_lines labels in
  lines ≠ [] → length predicts = length lines →
  Forall (fun p => Raw.label p ∈ star_tokens) predicts →
  Forall canonical gold → length gold = length lines →
  ∃ front records,
    main.convert_to_readable predicts lines = Ok records
    ∧ main.sentiment_classification classifier (Some data) (Some labels)
      = (front ++ [PrintAccuracy
                     (PyFloat (inject_Z (Z.of_nat (matches records gold))
                               / inject_Z (Z.of_nat (length lines)))%Q)],
         Ok tt).
Proof.
  intros lines predicts gold Hne Hlen Hall Hgold Hglen.
  destruct (pipeline_run classifier data labels Hne Hlen Hall)
    as (records & stars & categories & Hconv & Hrlen & Hrun).
  fold lines in Hrlen, Hconv. fold predicts in Hconv.
  pose proof (accuracy_step_valid labels records Hgold) as Hacc.
  fold gold in Hacc. rewrite decide_True in Hacc by lia.
  rewrite Hacc in Hrun.
  destruct records as [|r records]; [by destruct lines|].
  rewrite Hrlen in Hrun.
  exists (PrintBanner Processing
          :: distribution_report stars categories (length predicts)
          ++ [PrintBanner ClassificationResults;
              Print (PyStr.times "-" 50);
              Print "<phrase> : <predict> : <label>"]
          ++ map score_line (zip (r :: records) gold)
          ++ [Print (PyStr.times "-" 50)]), (r :: records).
  split; [exact Hconv|].
  rewrite Hrun. f_equal. cbn [app]. f_equal.
  rewrite <- !app_assoc. cbn [app]. rewrite <- !app_assoc. reflexivity.
Qed.

(** The sample data and gold files with the stand-in classifier. *)
Lemma pipeline_reports_accuracy_witness :
  let lines := main.data_lines sample_data_file in
  let predicts := toy_classifier lines in
  let gold := main.label_lines sample_gold_file in
  ∃ front records,
    main.convert_to_readable predicts lines = Ok records
    ∧ main.sentiment_classification toy_classifier
        (Some sample_data_file) (Some sample_gold_file)
      = (front ++ [PrintAccuracy
                     (PyFloat (inject_Z (Z.of_nat (matches records gold))
                               / inject_Z (Z.of_nat (length lines)))%Q)],
         Ok tt).
Proof.
  apply (pipeline_reports_accuracy toy_classifier sample_data_file
           sample_gold_file).
  - discriminate.
  - reflexivity.
  - by_decide.
  - by_decide.
  - reflexivity.
Defined.

(** X13. A gold line that is not a label is found only after the classification
    and the distribution report: with a classifier that keeps its contract,
    sentiment_classification prints the report and the header of the results
    and then raises the ValueError of [Labels], with no phrase scored and no
    accuracy printed. *)
Theorem pipeline_rejects_gold_late
    (classifier : list string → list RawPrediction)
    (data labels : list string) (line : string) :
  let lines := main.data_lines data in
  let predicts := classifier lines in
  let gold := main.label_lines labels in
  lines ≠ [] → length predicts = length lines →
  Forall (fun p => Raw.label p ∈ star_tokens) predicts →
  line ∈ gold → ¬ canonical line →
  ∃ bad stars categories,
    bad ∈ gold ∧ ¬ canonical bad
    ∧ main.sentiment_classification classifier (Some data) (Some labels)
      = (PrintBanner Processing
         :: distribution_report stars categories (length predicts)
         ++ [PrintBanner ClassificationResults;
             Print (PyStr.times "-" 50);
             Print "<phrase> : <predict> : <label>"],
         Raise (ValueError (NotAValidLabels bad))).
Proof.
  intros lines predicts gold Hne Hlen Hall Hin Hline.
  destruct (pipeline_run classifier data labels Hne Hlen Hall)
    as (records & stars & categories & Hconv & Hrlen & Hrun).
  destruct (count_metrics_cases labels records) as [[Hv _]|(bad & Hb & Hnb & Hc)].
  { destruct Hline. by apply (proj1 (Forall_forall _ _) Hv). }
  exists bad, stars, categories. split; [done|]. split; [done|].
  rewrite Hrun, accuracy_step_cases, Hc. by rewrite app_nil_r.
Qed.

(** The sample data file against the misspelt gold file. *)
Lemma pipeline_rejects_gold_late_witness :
  let lines := main.data_lines sample_data_file in
  let predicts := toy_classifier lines in
  let gold := main.label_lines misspelt_gold_file in
  ∃ bad stars categories,
    bad ∈ gold ∧ ¬ canonical bad
    ∧ main.sentiment_classification toy_classifier
        (Some sample_data_file) (Some misspelt_gold_file)
      = (PrintBanner Processing
         :: distribution_report stars categories (length predicts)
         ++ [PrintBanner ClassificationResults;
             Print (PyStr.times "-" 50);
             Print "<phrase> : <predict> : <label>"],
         Raise (ValueError (NotAValidLabels bad))).
Proof.
  apply (pipeline_rejects_gold_late toy_classifier sample_data_file
           misspelt_gold_file "neutrall").
  - discriminate.
  - reflexivity.
  - by_decide.
  - vm_compute. apply list_elem_of_further, list_elem_of_here.
  - intros [H|[H|H]]; discriminate H.
Defined.

(** X14. A label outside the five star tokens stops the pipeline at once: after
    the opening message sentiment_classification raises KeyError for the
    first such label among the predictions paired with a phrase, before any
    report, and without reading the gold file. *)
Theorem pipeline_unknown_label
    (classifier : list string → list RawPrediction)
    (data labels : list string) (i : nat) (p : RawPrediction) :
  let lines := main.data_lines data in
  let predicts := classifier lines in
  predicts !! i = Some p → (i < length lines)%nat →
  Raw.label p ∉ star_tokens →
  (∀ j q, (j < i)%nat → predicts !! j = Some q → Raw.label q ∈ star_tokens) →
  main.sentiment_classification classifier (Some data) (Some labels)
  = ([PrintBanner Processing], Raise (KeyError (Raw.label p))).
Proof.
  intros lines predicts Hp Hi Hbad Hgood.
  unfold main.sentiment_classification. fold lines. fold predicts.
  unfold main.convert_to_readable.
  by rewrite (convert_loop_unknown predicts lines i p [] Hp Hi Hbad Hgood).
Qed.

(** The sample data file with a classifier that answers "LABEL_0". *)
Lemma pipeline_unknown_label_witness :
  main.sentiment_classification stray_classifier
    (Some sample_data_file) (Some sample_gold_file)
  = ([PrintBanner Processing], Raise (KeyError "LABEL_0")).
Proof.
  apply (pipeline_unknown_label stray_classifier sample_data_file
           sample_gold_file 0%nat
           {| Raw.label := "LABEL_0"; Raw.score := (5 # 10)%Q |}).
  - reflexivity.
  - vm_compute. lia.
  - by_decide.
  - intros j q Hj. lia.
Defined.

(** X15. A data file without a phrase never reaches the scoring: when the
    classifier answers nothing for no phrase, the distribution report divides
    by the batch size of zero and sentiment_classification raises
    ZeroDivisionError, whatever the gold file holds; no accuracy is printed,
    so the zero that the scoring step keeps for an empty batch is never
    reported. *)
Theorem pipeline_empty_data
    (classifier : list string → list RawPrediction)
    (data labels : list string) :
  main.data_lines data = [] → classifier [] = [] →
  ∃ out,
    main.sentiment_classification classifier (Some data) (Some labels)
    = (out, Raise ZeroDivisionError)
    ∧ Forall (fun o => ∀ a, o ≠ PrintAccuracy a) out.
Proof.
  intros Hd Hc. unfold main.sentiment_classification. rewrite Hd, Hc.
  eexists. split; [reflexivity|]. by repeat constructor.
Qed.

(** A data file of two blank lines, with the stand-in classifier. *)
Lemma pipeline_empty_data_witness :
  ∃ out,
    main.sentiment_classification toy_classifier
      (Some [PyStr.LF; "  " +:+ PyStr.LF]) (Some sample_gold_file)
    = (out, Raise ZeroDivisionError)
    ∧ Forall (fun o => ∀ a, o ≠ PrintAccuracy a) out.
Proof.
  apply (pipeline_empty_data toy_classifier [PyStr.LF; "  " +:+ PyStr.LF]
           sample_gold_file); reflexivity.
Defined.

(** ** Rounding to 4 decimals *)

Lemma round_half_even_tie q :
  (q == inject_Z (round_half_even q) + (1 # 2)
   ∨ q == inject_Z (round_half_even q) - (1 # 2))%Q →
  Z.even (round_half_even q) = true.
Proof.
  unfold round_half_even.
  pose proof (Qfloor_le q) as Hlo. pose proof (Qlt_floor q) as Hhi.
  rewrite inject_Z_plus in Hhi. change (inject_Z 1) with 1%Q in Hhi.
  destruct (Qcompare_spec (q - inject_Z (Qfloor q)) (1 # 2)) as [He|Hl|Hg].
  - destruct (Z.even (Qfloor q)) eqn:Hf; [done|]. intros _.
    rewrite Z.add_1_r, Z.even_succ, <- Z.negb_even, Hf. done.
  - intros [H|H]; lra.
  - rewrite inject_Z_plus. change (inject_Z 1) with 1%Q. intros [H|H]; lra.
Qed.

(** The built-in [round] at 4 digits rounds to 4 decimals. *)
Lemma round_is_rounded x : rounded_to_4_decimals x (round x 4).
Proof.
  exists (round_half_even (x * inject_Z 10000)).
  split; [reflexivity|]. split.
  - apply round_half_even_near.
  - apply round_half_even_tie.
Qed.

(** C7. For texts and predictions of equal length whose labels are star
    tokens, convert_to_readable returns as many records, the i-th made of the
    i-th text, the sentiment of the i-th prediction's label and its score
    rounded to 4 decimals: the nearest multiple of 1/10000, the even one on a
    tie, which is what the built-in [round] returns. *)
Theorem convert_to_readable_pointwise
    (predicts : list RawPrediction) (texts : list string) :
  length texts = length predicts →
  Forall (fun p => Raw.label p ∈ star_tokens) predicts →
  ∃ rs, main.convert_to_readable predicts texts = Ok rs
    ∧ length rs = length texts
    ∧ ∀ i t p, texts !! i = Some t → predicts !! i = Some p →
        ∃ c conf,
          label_mapper_spec (Raw.label p) = Ok c
          ∧ rounded_to_4_decimals (Raw.score p) conf
          ∧ conf = round (Raw.score p) 4
          ∧ rs !! i = Some {| Readable.text := t; Readable.label := c;
                              Readable.confidence := conf |}.
Proof.
  intros Hlen Hall. unfold main.convert_to_readable.
  destruct (convert_loop_run (zip texts predicts) []) as (rs & Hrun & Hrs).
  { apply Forall_forall. intros [t p] Hin. simpl.
    apply (proj1 (Forall_forall _ _) Hall). by apply elem_of_zip_r in Hin. }
  exists rs. split; [done|].
  pose proof (Forall2_length _ _ _ Hrs) as Hl.
  rewrite length_zip in Hl. split; [lia|].
  intros i t p Ht Hp.
  assert (zip texts predicts !! i = Some (t, p)) as Hz.
  { rewrite lookup_zip_with, Ht. simpl. by rewrite Hp. }
  destruct (Forall2_lookup_l _ _ _ _ _ Hrs Hz) as ([rt rl rc] & Hr & Ht' & Hl' & Hc').
  simpl in *. subst. exists rl, (round (Raw.score p) 4).
  split; [done|]. split; [apply round_is_rounded|]. by split.
Qed.

(** The two sample texts and predictions. *)
Lemma convert_to_readable_pointwise_witness :
  ∃ rs, main.convert_to_readable sample_predictions sample_texts = Ok rs
    ∧ length rs = length sample_texts
    ∧ ∀ i t p, sample_texts !! i = Some t → sample_predictions !! i = Some p →
        ∃ c conf,
          label_mapper_spec (Raw.label p) = Ok c
          ∧ rounded_to_4_decimals (Raw.score p) conf
          ∧ conf = round (Raw.score p) 4
          ∧ rs !! i = Some {| Readable.text := t; Readable.label := c;
                              Readable.confidence := conf |}.
Proof.
  apply (convert_to_readable_pointwise sample_predictions sample_texts).
  - reflexivity.
  - by_decide.
Defined.

(** ** The distribution report, against the star values 1 to 5 *)

Lemma star_number_is_value raw s :
  getitem analysis.star_to_number raw = Ok s → star_value_spec raw = Some s.
Proof.
  intros Hs. apply star_number_cases in Hs. unfold star_value_spec.
  destruct Hs as [[-> ->]|[[-> ->]|[[-> ->]|[[-> ->]|[-> ->]]]]]; done.
Qed.

(** C8. For a batch that is not empty and whose labels are star tokens, the
    report and the bar chart list exactly negative, neutral, positive, each
    with the number of its occurrences, which may be zero, while the star
    lines and bars, in increasing order and without repetition, are those of
    the star values that occur: of the values 1 to 5, exactly those whose
    token is the label of a prediction, each with the number of predictions
    that carry it. *)
Theorem distribution_breakdown (predicts : list RawPrediction) :
  predicts ≠ [] →
  Forall (fun p => Raw.label p ∈ star_tokens) predicts →
  let labels := map Raw.label predicts in
  ∃ out stars categories,
    analysis.analyze_predictions_distribution predicts = (out, Ok tt)
    ∧ Forall2 (fun p s => getitem analysis.star_to_number (Raw.label p) = Ok s)
        predicts stars
    ∧ Forall2 (fun p s => star_value_spec (Raw.label p) = Some s)
        predicts stars
    ∧ Forall2 (fun p c => label_mapper_spec (Raw.label p) = Ok c)
        predicts categories
    ∧ category_rows out
      = [("negative", occurrences "negative" categories);
         ("neutral", occurrences "neutral" categories);
         ("positive", occurrences "positive" categories)]
    ∧ category_bars out
      = [(["negative"; "neutral"; "positive"],
          [occurrences "negative" categories;
           occurrences "neutral" categories;
           occurrences "positive" categories])]
    ∧ (∀ s, s ∈ (star_rows out).*1 ↔ s ∈ stars)
    ∧ (∀ s n, (s, n) ∈ star_rows out →
         n = occurrences s stars ∧ (0 < n)%nat)
    ∧ NoDup (star_rows out).*1
    ∧ Sorted Z.le (star_rows out).*1
    ∧ star_bars out = [((star_rows out).*1, (star_rows out).*2)]
    ∧ star_rows out
      = filter (fun r => 0 < r.2)%nat
          [(1, occurrences "1 star" labels);
           (2, occurrences "2 stars" labels);
           (3, occurrences "3 stars" labels);
           (4, occurrences "4 stars" labels);
           (5, occurrences "5 stars" labels)].
Proof.
  intros Hne Hall labels.
  destruct (analyze_predictions_distribution_run predicts Hne Hall)
    as (stars & categories & Hstars & Hcats & Hrun).
  exists (distribution_report stars categories (length predicts)),
    stars, categories.
  destruct (report_bars stars categories (length predicts)) as [Hsb Hcb].
  rewrite report_star_rows, report_category_rows, Hsb, Hcb.
  set (keys := analysis.sorted_keys (analysis.Counter stars)).
  assert ((map (fun s => (s, occurrences s stars)) keys).*1 = keys) as ->.
  { rewrite <- list_fmap_compose. apply list_fmap_id. }
  assert ((map (fun s => (s, occurrences s stars)) keys).*2
          = map (fun s => occurrences s stars) keys) as ->.
  { by rewrite <- list_fmap_compose. }
  split; [exact Hrun|]. split; [exact Hstars|].
  split.
  { eapply Forall2_impl; [exact Hstars|]. intros p s. apply star_number_is_value. }
  split; [exact Hcats|].
  split; [reflexivity|]. split; [reflexivity|].
  split; [intros s; apply sorted_keys_elem|].
  split.
  { intros s n Hin. apply list_elem_of_fmap in Hin as (s' & [= -> ->] & Hs').
    split; [done|]. apply occurrences_pos. by apply sorted_keys_elem. }
  split; [apply sorted_keys_NoDup|].
  split; [apply sorted_keys_Sorted|]. split; [done|].
  unfold keys. rewrite (sorted_keys_filter stars predicts Hstars).
  rewrite rows_of_occurring. cbn [map]. unfold labels.
  rewrite (stars_count predicts stars "1 star" 1 Hstars eq_refl).
  rewrite (stars_count predicts stars "2 stars" 2 Hstars eq_refl).
  rewrite (stars_count predicts stars "3 stars" 3 Hstars eq_refl).
  rewrite (stars_count predicts stars "4 stars" 4 Hstars eq_refl).
  by rewrite (stars_count predicts stars "5 stars" 5 Hstars eq_refl).
Qed.


(** The report of the two sample predictions. *)
Lemma distribution_breakdown_witness :
  let labels := map Raw.label sample_predictions in
  ∃ out stars categories,
    analysis.analyze_predictions_distribution sample_predictions = (out, Ok tt)
    ∧ Forall2 (fun p s => getitem analysis.star_to_number (Raw.label p) = Ok s)
        sample_predictions stars
    ∧ Forall2 (fun p s => star_value_spec (Raw.label p) = Some s)
        sample_predictions stars
    ∧ Forall2 (fun p c => label_mapper_spec (Raw.label p) = Ok c)
        sample_predictions categories
    ∧ category_rows out
      = [("negative", occurrences "negative" categories);
         ("neutral", occurrences "neutral" categories);
         ("positive", occurrences "positive" categories)]
    ∧ category_bars out
      = [(["negative"; "neutral"; "positive"],
          [occurrences "negative" categories;
           occurrences "neutral" categories;
           occurrences "positive" categories])]
    ∧ (∀ s, s ∈ (star_rows out).*1 ↔ s ∈ stars)
    ∧ (∀ s n, (s, n) ∈ star_rows out →
         n = occurrences s stars ∧ (0 < n)%nat)
    ∧ NoDup (star_rows out).*1
    ∧ Sorted Z.le (star_rows out).*1
    ∧ star_bars out = [((star_rows out).*1, (star_rows out).*2)]
    ∧ star_rows out
      = filter (fun r => 0 < r.2)%nat
          [(1, occurrences "1 star" labels);
           (2, occurrences "2 stars" labels);
           (3, occurrences "3 stars" labels);
           (4, occurrences "4 stars" labels);
           (5, occurrences "5 stars" labels)].
Proof.
  apply (distribution_breakdown sample_predictions).
  - discriminate.
  - by_decide.
Defined.

(** ** Trimming and lowercasing, against the code points *)

Lemma isspace_whitespace c : PyStr.isspace c = bool_decide (whitespace c).
Proof. by destruct c as [[] [] [] [] [] [] [] []]; vm_compute. Qed.

Lemma lower_char_code c :
  N_of_ascii (PyStr.lower_char c)
  = (if decide (capital c) then N_of_ascii c + 32 else N_of_ascii c)%N.
Proof. by destruct c as [[] [] [] [] [] [] [] []]; vm_compute. Qed.

Lemma lower_lowercase_of s : lowercase_of s (PyStr.lower s).
Proof.
  induction s as [|c s IH]; [done|]. simpl. split; [|done].
  apply lower_char_code.
Qed.

Lemma all_space_whitespace_only s : all_space s = true ↔ whitespace_only s.
Proof.
  induction s as [|c s IH]; [done|]. simpl.
  rewrite andb_true_iff, IH, isspace_whitespace, bool_decide_eq_true. done.
Qed.

Lemma all_space_app a b : all_space (a +:+ b) = all_space a && all_space b.
Proof.
  induction a as [|c a IH]; [done|]. rewrite app_String. simpl.
  by rewrite IH, andb_assoc.
Qed.

Lemma lstrip_all_space s : all_space s = true → PyStr.lstrip s = "".
Proof.
  induction s as [|c s IH]; [done|]. simpl.
  intros [Hc Hs]%andb_true_iff. rewrite Hc. by apply IH.
Qed.

(** A line survives [strip] exactly when it has a character that is not
    whitespace. *)
Lemma strip_truthy line :
  PyStr.truthy (PyStr.strip line) = negb (all_space line).
Proof.
  destruct (all_space line) eqn:Hall; simpl.
  - unfold PyStr.strip. by rewrite (lstrip_all_space _ Hall).
  - destruct (strip_trims line) as ((a & b & Hline & Ha & Hb) & _ & _).
    destruct (PyStr.strip line) as [|c core] eqn:Hs; [|done].
    rewrite Hline, !all_space_app, Ha, Hb in Hall. done.
Qed.

Lemma strip_trimmed line : trimmed_of line (PyStr.strip line).
Proof.
  destruct (strip_trims line) as ((a & b & Hline & Ha & Hb) & Hfirst & Hlast).
  split; [|split].
  - exists a, b. by rewrite <- !all_space_whitespace_only.
  - intros c Hc Hw. specialize (Hfirst c Hc).
    rewrite isspace_whitespace, bool_decide_eq_false in Hfirst. done.
  - intros c Hc Hw. specialize (Hlast c Hc).
    rewrite isspace_whitespace, bool_decide_eq_false in Hlast. done.
Qed.

(** The gold lines, one for each line of the file that is not whitespace
    only: that line trimmed, then lowercased. *)
Lemma label_lines_trimmed_lowercased file_lines :
  Forall2 (fun line out =>
             ∃ core, trimmed_of line core ∧ core ≠ ""
                     ∧ lowercase_of core out)
    (filter (fun line => ¬ whitespace_only line) file_lines)
    (main.label_lines file_lines).
Proof.
  induction file_lines as [|line rest IH]; [constructor|].
  rewrite filter_cons. simpl. rewrite strip_truthy.
  destruct (all_space line) eqn:Hall; simpl.
  - rewrite decide_False; [done|].
    intros Hn. apply Hn. by apply all_space_whitespace_only.
  - rewrite decide_True.
    2:{ rewrite <- all_space_whitespace_only, Hall. done. }
    constructor; [|done]. exists (PyStr.strip line).
    split; [apply strip_trimmed|]. split; [|apply lower_lowercase_of].
    apply truthy_nonempty. by rewrite strip_truthy, Hall.
Qed.

(** C9. The lines count_metrics works on are the lines of the file trimmed,
    with the lines that are empty after trimming dropped, and lowercased:
    there is one for each line that has a character other than whitespace,
    in the order of the file, and it is that line without the whitespace at
    its two ends and with every capital letter replaced by its small
    letter; no empty line remains, the number of lines is the number of
    non-blank lines, and a blank line anywhere in the file changes nothing. *)
Theorem gold_preprocessing (file_lines : list string) :
  main.label_lines file_lines = preprocess_spec file_lines
  ∧ (∀ l, l ∈ main.label_lines file_lines → l ≠ "")
  ∧ length (main.label_lines file_lines)
    = length (List.filter (fun line => PyStr.truthy (PyStr.strip line)) file_lines)
  ∧ (∀ before line after data,
       file_lines = before ++ line :: after → blank line →
       main.label_lines file_lines = main.label_lines (before ++ after)
       ∧ main.count_metrics file_lines data
         = main.count_metrics (before ++ after) data)
  ∧ Forall2 (fun line out =>
               ∃ core, trimmed_of line core ∧ core ≠ ""
                       ∧ lowercase_of core out)
      (filter (fun line => ¬ whitespace_only line) file_lines)
      (main.label_lines file_lines)
  ∧ length (main.label_lines file_lines)
    = length (filter (fun line => ¬ whitespace_only line) file_lines)
  ∧ (∀ before line after data,
       file_lines = before ++ line :: after → whitespace_only line →
       main.label_lines file_lines = main.label_lines (before ++ after)
       ∧ main.count_metrics file_lines data
         = main.count_metrics (before ++ after) data).
Proof.
  assert (∀ before line after data,
            file_lines = before ++ line :: after → blank line →
            main.label_lines file_lines = main.label_lines (before ++ after)
            ∧ main.count_metrics file_lines data
              = main.count_metrics (before ++ after) data) as Hblank.
  { intros before line after data -> Hb.
    assert (main.label_lines (before ++ line :: after)
            = main.label_lines (before ++ after)) as He.
    { rewrite !label_lines_app. f_equal. simpl. unfold blank in Hb. by rewrite Hb. }
    split; [done|]. unfold main.count_metrics. by rewrite He. }
  split; [apply label_lines_preprocess|].
  split; [apply label_lines_nonempty|].
  split; [apply label_lines_length|].
  split; [exact Hblank|].
  split; [apply label_lines_trimmed_lowercased|].
  split.
  { symmetry. apply (Forall2_length _ _ _ (label_lines_trimmed_lowercased file_lines)). }
  intros before line after data Hfile Hw. apply (Hblank _ line); [done|].
  unfold blank. apply all_space_whitespace_only in Hw.
  unfold PyStr.strip. by rewrite (lstrip_all_space _ Hw).
Qed.
